(** * punctuator.py: a line-oriented text-correction filter

    Shallow embedding of [src/punctuator.py].  The script reads lines
    from standard input; a line that is blank after [strip()] is echoed
    as an empty line, every other line is tokenized, cut to the
    tokenizer's [model_max_length] when longer, given a length budget
    derived from its word count and handed to a text2text pipeline
    whose first candidate is printed.

    The tokenizer and the pipeline are library objects: they are taken
    as parameters (records of functions that may raise).  Every call to
    them and every [print] is recorded in an event log, so that what the
    script asks of its collaborators can be stated and proved. *)

From Stdlib Require Import Ascii String List ZArith NArith Bool Lia.
Import ListNotations.
Local Open Scope Z_scope.

(** ** Python values *)

(** A Python [str] is a sequence of Unicode code points. *)
Definition char := N.
Definition str := list char.

(** [str.isspace] on one code point, the table of CPython's
    [_PyUnicode_IsWhitespace]: this is the set [strip()] and [split()]
    without argument work with. *)
Definition isspace (c : char) : bool :=
  (((9 <=? c) && (c <=? 13)) ||
   ((28 <=? c) && (c <=? 32)) ||
   (c =? 133) || (c =? 160) || (c =? 5760) ||
   ((8192 <=? c) && (c <=? 8202)) ||
   (c =? 8232) || (c =? 8233) || (c =? 8239) || (c =? 8287) ||
   (c =? 12288))%N.

Fixpoint lstrip (s : str) : str :=
  match s with
  | [] => []
  | c :: s' => if isspace c then lstrip s' else s
  end.

Definition rstrip (s : str) : str := rev (lstrip (rev s)).

(** [s.strip()] *)
Definition strip (s : str) : str := rstrip (lstrip s).

(** [s.split()]: the maximal runs of non-whitespace characters, in
    order.  [cur] is the run being read, most recent character first. *)
Fixpoint split_from (cur : str) (s : str) : list str :=
  match s with
  | [] => match cur with [] => [] | _ => [rev cur] end
  | c :: s' =>
      if isspace c
      then match cur with
           | [] => split_from [] s'
           | _ => rev cur :: split_from [] s'
           end
      else split_from (c :: cur) s'
  end.

Definition split (s : str) : list str := split_from [] s.

(** [len(x)] as a Python integer. *)
Definition len {A : Type} (l : list A) : Z := Z.of_nat (length l).

(** [l[:stop]]: a negative [stop] counts from the end, and the bound is
    clamped to the list. *)
Definition slice_to {A : Type} (l : list A) (stop : Z) : list A :=
  let n := len l in
  let stop' := if stop <? 0 then Z.max (stop + n) 0 else Z.min stop n in
  firstn (Z.to_nat stop') l.

(** Truth value of a [str]: [not text] holds for the empty string only. *)
Definition is_empty (s : str) : bool :=
  match s with [] => true | _ => false end.

(** ** Exceptions and results *)

Inductive exn : Type :=
| IndexError
| KeyError (key : string)
| LibraryError (msg : string).

Inductive result (A : Type) : Type :=
| Ok (a : A)
| Raise (e : exn).
Arguments Ok {A} a.
Arguments Raise {A} e.

(** A Python [dict] with string keys, as the pipeline returns them. *)
Definition dict := list (string * str).

Fixpoint dict_get (d : dict) (k : string) : result str :=
  match d with
  | [] => Raise (KeyError k)
  | (k', v) :: d' => if String.eqb k' k then Ok v else dict_get d' k
  end.

(** [l[0]] *)
Definition index0 {A : Type} (l : list A) : result A :=
  match l with
  | [] => Raise IndexError
  | x :: _ => Ok x
  end.

(** ** Collaborators *)

(** The keyword arguments of the pipeline call. *)
Record gen_call : Type := mk_gen_call {
  inputs : str;
  max_length : Z;
  min_length : Z;
  do_sample : bool;
  truncation : bool
}.

(** [AutoTokenizer.from_pretrained(model_name)] *)
Record Tokenizer : Type := mk_tokenizer {
  encode : str -> bool -> result (list Z);      (* text, truncation= *)
  decode : list Z -> bool -> result str;        (* ids, skip_special_tokens= *)
  model_max_length : Z
}.

(** [pipeline("text2text-generation", ...)] *)
Definition Pipeline : Type := gen_call -> result (list dict).

(** ** Events and the monad of the script *)

Inductive event : Type :=
| EvEncode (text : str) (trunc : bool)
| EvDecode (ids : list Z) (skip_special_tokens : bool)
| EvGenerate (g : gen_call)
| EvPrint (obj : option str) (flush : bool).

(** A computation yields the events it performed and either a value
    or the exception that stopped it. *)
Definition M (A : Type) : Type := (list event * result A)%type.

Definition ret {A : Type} (a : A) : M A := ([], Ok a).

Definition bind {A B : Type} (m : M A) (f : A -> M B) : M B :=
  match m with
  | (l, Raise e) => (l, Raise e)
  | (l, Ok a) => let (l', r) := f a in (l ++ l', r)
  end.

Notation "x <- m ;; k" := (bind m (fun x => k))
  (at level 61, m at next level, right associativity).
Notation "m ;;; k" := (bind m (fun _ => k))
  (at level 61, right associativity).

(** One event whose outcome is [r]. *)
Definition perform {A : Type} (e : event) (r : result A) : M A := ([e], r).

Definition log {A : Type} (m : M A) : list event := fst m.
Definition outcome {A : Type} (m : M A) : result A := snd m.

Definition lift {A : Type} (r : result A) : M A := ([], r).

(** [print()] is [print_ None false]; [print(s, flush=True)] is
    [print_ (Some s) true]. *)
Definition print_ (obj : option str) (flush : bool) : M unit :=
  perform (EvPrint obj flush) (Ok tt).

(** ** The script *)

Section Script.

Variable tokenizer : Tokenizer.
Variable model : Pipeline.

Definition MAX_TOKENS : Z := model_max_length tokenizer.

Definition tokenizer_encode (text : str) (trunc : bool) : M (list Z) :=
  perform (EvEncode text trunc) (encode tokenizer text trunc).

Definition tokenizer_decode (ids : list Z) (skip : bool) : M str :=
  perform (EvDecode ids skip) (decode tokenizer ids skip).

Definition call_model (g : gen_call) : M (list dict) :=
  perform (EvGenerate g) (model g).

(** Lines 26-30: tokenize, and when the ids exceed [MAX_TOKENS] cut
    them and decode the prefix back into the text. *)
Definition truncate_text (text : str) : M str :=
  ids <- tokenizer_encode text false ;;
  if len ids >? MAX_TOKENS
  then
    let ids := slice_to ids MAX_TOKENS in
    tokenizer_decode ids true
  else ret text.

(** Lines 33-34. *)
Definition word_count (text : str) : Z := len (split text).
Definition max_len (text : str) : Z := Z.max (word_count text * 2) 5.

(** Lines 35-41. *)
Definition request (text : str) : gen_call :=
  {| inputs := text;
     max_length := max_len text;
     min_length := 1;
     do_sample := false;
     truncation := true |}.

(** Lines 20-43: the body of the loop, for one [line] of [sys.stdin]. *)
Definition loop_body (line : str) : M unit :=
  let text := strip line in
  if is_empty text
  then print_ None false
  else
    text <- truncate_text text ;;
    out <- call_model (request text) ;;
    first <- lift (index0 out) ;;
    generated <- lift (dict_get first "generated_text"%string) ;;
    print_ (Some generated) true.

(** Line 19: [for line in sys.stdin]. *)
Fixpoint main (stdin : list str) : M unit :=
  match stdin with
  | [] => ret tt
  | line :: rest => loop_body line ;;; main rest
  end.

End Script.

(** ** What an event log shows *)

(** The text each [print] call writes before its newline, in order:
    one entry per output line. *)
Definition printed_text (obj : option str) : str :=
  match obj with None => [] | Some s => s end.

Fixpoint printed (l : list event) : list str :=
  match l with
  | [] => []
  | EvPrint obj _ :: l' => printed_text obj :: printed l'
  | _ :: l' => printed l'
  end.

Fixpoint generate_calls (l : list event) : list gen_call :=
  match l with
  | [] => []
  | EvGenerate g :: l' => g :: generate_calls l'
  | _ :: l' => generate_calls l'
  end.

Fixpoint decode_calls (l : list event) : list (list Z) :=
  match l with
  | [] => []
  | EvDecode ids _ :: l' => ids :: decode_calls l'
  | _ :: l' => decode_calls l'
  end.

Fixpoint encode_calls (l : list event) : list str :=
  match l with
  | [] => []
  | EvEncode text _ :: l' => text :: encode_calls l'
  | _ :: l' => encode_calls l'
  end.

(** [sys.stdout]: what has reached the consumer and what still sits in
    the stream's buffer.  A [print] writes its text and a newline; the
    buffer is handed on when the call asks for it ([flush=True]) or when
    the stream is line-buffered (a terminal).  A stream that is not a
    terminal is block-buffered; the buffer is taken large enough for the
    pending text. *)
Record stdout : Type := mk_stdout {
  delivered : str;
  pending : str
}.

Definition newline : char := 10%N.

Definition write_event (line_buffering : bool) (o : stdout) (e : event)
  : stdout :=
  match e with
  | EvPrint obj flush =>
      let data := pending o ++ printed_text obj ++ [newline] in
      if flush || line_buffering
      then {| delivered := delivered o ++ data; pending := [] |}
      else {| delivered := delivered o; pending := data |}
  | _ => o
  end.

Definition stdout_after (line_buffering : bool) (o : stdout)
  (l : list event) : stdout :=
  fold_left (write_event line_buffering) l o.

Definition empty_stdout : stdout := {| delivered := []; pending := [] |}.

(** A word: a non-empty string without whitespace. *)
Definition single_word (s : str) : Prop :=
  s <> [] /\ forallb (fun c => negb (isspace c)) s = true.

(** ** Sample collaborators

    Small stand-ins for the library objects, used to run the script on
    concrete input. *)

(** Code points of an ASCII literal. *)
Definition py (s : string) : str :=
  map N_of_ascii (list_ascii_of_string s).

(** The id a T5 vocabulary gives to the end-of-sequence token. *)
Definition eos : Z := 1.

(** A tokenizer with one token per character.  As a SentencePiece
    tokenizer of the T5 family does, [encode] closes the sequence with
    the end-of-sequence token and [decode] leaves special tokens out
    when asked to. *)
Definition char_tokenizer (capacity : Z) : Tokenizer :=
  {| encode := fun text _ => Ok (map Z.of_N text ++ [eos]);
     decode := fun ids skip =>
       Ok (map Z.to_N
             (filter (fun i => negb (skip && (i =? eos))) ids));
     model_max_length := capacity |}.

(** A tokenizer whose [encode] raises. *)
Definition failing_tokenizer : Tokenizer :=
  {| encode := fun _ _ => Raise (LibraryError "encode");
     decode := fun _ _ => Raise (LibraryError "decode");
     model_max_length := 512 |}.

(** A pipeline that returns its input as the only candidate. *)
Definition echo_model : Pipeline :=
  fun g => Ok [[("generated_text"%string, inputs g)]].

(** A pipeline that returns no candidate. *)
Definition silent_model : Pipeline := fun _ => Ok [].

(** A pipeline that raises. *)
Definition failing_model : Pipeline :=
  fun _ => Raise (LibraryError "generate").

(** ** Sample input *)

Definition line_blank : str := py "   " ++ [newline].
Definition line_hello : str := py "  hello " ++ [newline].
Definition line_abc : str := py "abc" ++ [newline].
Definition line_four_words : str := py "a b c d" ++ [newline].
Definition line_grammar : str :=
  py "This is an test of grammar" ++ [newline].

(** Three lines, the second one blank. *)
Definition three_lines : list str :=
  [py "ab" ++ [newline]; [newline]; py "cd" ++ [newline]].

(** ** What the collaborators answer

    [yields_text tokenizer text t]: the answers of the tokenizer make
    [t] the text that goes on to generation.  Either [text] is encoded
    into at most [MAX_TOKENS] ids and [t] is [text], or it is encoded
    into more and [t] is what [decode] returns for the cut ids. *)
Definition yields_text (tokenizer : Tokenizer) (text t : str) : Prop :=
  exists ids,
    encode tokenizer text false = Ok ids /\
    ((len ids <= MAX_TOKENS tokenizer /\ t = text) \/
     (len ids > MAX_TOKENS tokenizer /\
      decode tokenizer (slice_to ids (MAX_TOKENS tokenizer)) true = Ok t)).

(** [processable tokenizer model line]: nothing the script asks of its
    collaborators for [line] fails.  A blank line asks nothing; for
    another line the tokenizer yields a text and the pipeline returns,
    for the request made of that text, at least one candidate that has
    a ["generated_text"]. *)
Definition processable (tokenizer : Tokenizer) (model : Pipeline)
  (line : str) : Prop :=
  strip line = [] \/
  exists t d rest s,
    yields_text tokenizer (strip line) t /\
    model (request t) = Ok (d :: rest) /\
    dict_get d "generated_text" = Ok s.

(** Collaborators that never fail. *)
Definition reliable (tokenizer : Tokenizer) (model : Pipeline) : Prop :=
  (forall text, exists ids, encode tokenizer text false = Ok ids) /\
  (forall ids, exists t, decode tokenizer ids true = Ok t) /\
  (forall g, exists d rest s,
      model g = Ok (d :: rest) /\ dict_get d "generated_text" = Ok s).

(** ** Token count of the text given to the generator

    The token count of a text is the length of its encoding without
    truncation.  [effective_text_fits] says that every text the script
    hands to the pipeline for [line] has a token count within
    [MAX_TOKENS]. *)
Definition effective_text_fits (tokenizer : Tokenizer) (model : Pipeline)
  (line : str) : Prop :=
  forall g ids',
    In g (generate_calls (log (loop_body tokenizer model line))) ->
    encode tokenizer (inputs g) false = Ok ids' ->
    len ids' <= MAX_TOKENS tokenizer.

(** ** Further notions used to describe whole runs *)

(** Lines 35-43 taken on their own: the call to the pipeline for the
    text [text], the lookup of the first candidate and the print. *)
Definition generate_and_print (model : Pipeline) (text : str) : M unit :=
  out <- call_model model (request text) ;;
  first <- lift (index0 out) ;;
  generated <- lift (dict_get first "generated_text"%string) ;;
  print_ (Some generated) true.

(** The stripped texts of the lines that are not blank, in order. *)
Definition nonblank_texts (stdin : list str) : list str :=
  filter (fun text => negb (is_empty text)) (map strip stdin).

(** What line 43 reads of an answer of the pipeline: the
    ["generated_text"] of the first candidate, or the exception. *)
Definition first_text (r : result (list dict)) : result str :=
  match r with
  | Ok out =>
      match index0 out with
      | Ok first => dict_get first "generated_text"%string
      | Raise e => Raise e
      end
  | Raise e => Raise e
  end.

(** A string of newlines. *)
Definition all_newlines (s : str) : Prop := Forall (fun c => c = newline) s.

(** A pipeline of another task: its candidates carry a
    ["summary_text"], not a ["generated_text"]. *)
Definition summary_model : Pipeline :=
  fun g => Ok [[("summary_text"%string, inputs g)]].

(** A pipeline that returns two candidates. *)
Definition two_candidates_model : Pipeline :=
  fun g => Ok [[("generated_text"%string, inputs g)];
               [("generated_text"%string, py "another")]].

(** Closed goals about sample input are settled by running the
    definitions. *)
Ltac run := vm_compute; first [reflexivity | discriminate].

(** * Properties *)

(** ** Slices *)

Lemma len_nonneg {A : Type} (l : list A) : 0 <= len l.
Proof. unfold len; lia. Qed.

Lemma slice_to_firstn {A : Type} (l : list A) (stop : Z) :
  0 <= stop -> slice_to l stop = firstn (Z.to_nat stop) l.
Proof.
  intros Hs. unfold slice_to.
  destruct (Z.ltb_spec stop 0) as [Hlt | _]; [lia |].
  destruct (Z.le_gt_cases stop (len l)) as [Hle | Hgt].
  - now rewrite Z.min_l.
  - rewrite Z.min_r by lia. unfold len in *.
    rewrite Nat2Z.id, firstn_all.
    symmetry. apply firstn_all2. lia.
Qed.

Lemma slice_to_len_exact {A : Type} (l : list A) (stop : Z) :
  0 <= stop -> stop < len l -> len (slice_to l stop) = stop.
Proof.
  intros Hs Hlt. rewrite slice_to_firstn by assumption.
  unfold len in *. rewrite length_firstn. lia.
Qed.

(** The length of a slice in general: with a negative [stop] the
    slice drops elements from the end. *)
Lemma slice_to_len {A : Type} (l : list A) (stop : Z) :
  len (slice_to l stop) =
    if stop <? 0 then Z.max (stop + len l) 0 else Z.min stop (len l).
Proof.
  unfold slice_to, len. rewrite length_firstn.
  destruct (Z.ltb_spec stop 0); lia.
Qed.

Lemma slice_to_len_le {A : Type} (l : list A) (stop : Z) :
  0 <= stop -> len (slice_to l stop) <= stop.
Proof.
  intros Hs. rewrite slice_to_firstn by assumption.
  unfold len. rewrite length_firstn. lia.
Qed.

(** ** Whitespace *)

Lemma lstrip_nil_iff (s : str) :
  lstrip s = [] <-> forallb isspace s = true.
Proof.
  induction s as [| c s IH]; [now split |].
  simpl. destruct (isspace c); [exact IH |].
  split; discriminate.
Qed.

Lemma forallb_rev {A : Type} (f : A -> bool) (l : list A) :
  forallb f (rev l) = forallb f l.
Proof.
  induction l as [| x l IH]; [reflexivity |].
  simpl. rewrite forallb_app, IH. simpl.
  rewrite andb_true_r. apply andb_comm.
Qed.

(** What [lstrip] leaves is empty or starts with a character that is
    not whitespace. *)
Lemma lstrip_head (s : str) :
  match lstrip s with
  | [] => True
  | c :: _ => isspace c = false
  end.
Proof.
  induction s as [| c s IH]; [exact I |].
  simpl. destruct (isspace c) eqn:Hc; [exact IH | exact Hc].
Qed.

(** The blank lines are the lines made of whitespace only. *)
Lemma strip_nil_iff (s : str) :
  strip s = [] <-> forallb isspace s = true.
Proof.
  unfold strip, rstrip. split.
  - intros H. apply lstrip_nil_iff.
    assert (Hr : lstrip (rev (lstrip s)) = []).
    { destruct (lstrip (rev (lstrip s))) as [| c t]; [reflexivity |].
      simpl in H. now destruct (rev t). }
    apply lstrip_nil_iff in Hr. rewrite forallb_rev in Hr.
    pose proof (lstrip_head s) as Hh.
    destruct (lstrip s) as [| c t]; [reflexivity |].
    simpl in Hr. rewrite Hh in Hr. discriminate.
  - intros H. apply lstrip_nil_iff in H. now rewrite H.
Qed.

(** ** Words *)

Lemma split_from_word (s cur : str) :
  forallb (fun c => negb (isspace c)) s = true ->
  split_from cur s =
    match rev cur ++ s with [] => [] | w => [w] end.
Proof.
  revert cur. induction s as [| c s IH]; intros cur Hs.
  - simpl. rewrite app_nil_r.
    destruct cur as [| x cur]; [reflexivity |].
    simpl. destruct (rev cur ++ [x]) eqn:E; [| reflexivity].
    now destruct (rev cur).
  - simpl in Hs. apply andb_true_iff in Hs as [Hc Hs].
    apply negb_true_iff in Hc. simpl. rewrite Hc.
    rewrite (IH (c :: cur) Hs). simpl.
    now rewrite <- app_assoc.
Qed.

Lemma split_single_word (s : str) : single_word s -> split s = [s].
Proof.
  intros [Hne Hs]. unfold split.
  rewrite (split_from_word s [] Hs). simpl.
  now destruct s.
Qed.

Lemma max_len_floor (text : str) : 5 <= max_len text.
Proof. unfold max_len. lia. Qed.

Lemma max_len_single_word (text : str) :
  single_word text -> max_len text = 5.
Proof.
  intros Hw. unfold max_len, word_count.
  now rewrite (split_single_word text Hw).
Qed.

(** ** The monad *)

Lemma bind_ok {A B : Type} (l : list event) (a : A) (f : A -> M B) :
  bind (l, Ok a) f = (l ++ log (f a), outcome (f a)).
Proof. unfold bind, log, outcome. now destruct (f a). Qed.

Lemma bind_raise {A B : Type} (l : list event) (e : exn) (f : A -> M B) :
  bind (l, Raise e) f = (l, Raise e).
Proof. reflexivity. Qed.

Lemma M_eta {A : Type} (m : M A) : m = (log m, outcome m).
Proof. now destruct m. Qed.

Lemma printed_app (l1 l2 : list event) :
  printed (l1 ++ l2) = printed l1 ++ printed l2.
Proof.
  induction l1 as [| e l1 IH]; [reflexivity |].
  destruct e; simpl; now rewrite ?IH.
Qed.

(** ** Tokenization and truncation (lines 26-30) *)

Section Truncation.

Variable tokenizer : Tokenizer.
Variable text : str.

Lemma truncate_text_raise (e : exn) :
  encode tokenizer text false = Raise e ->
  truncate_text tokenizer text = ([EvEncode text false], Raise e).
Proof.
  intros He. unfold truncate_text, tokenizer_encode, perform.
  now rewrite He.
Qed.

Lemma truncate_text_fits (ids : list Z) :
  encode tokenizer text false = Ok ids ->
  len ids <= MAX_TOKENS tokenizer ->
  truncate_text tokenizer text = ([EvEncode text false], Ok text).
Proof.
  intros He Hle. unfold truncate_text, tokenizer_encode, perform.
  rewrite He, bind_ok.
  destruct (Z.gtb_spec (len ids) (MAX_TOKENS tokenizer)) as [Hgt | _];
    [lia | reflexivity].
Qed.

Lemma truncate_text_cut (ids : list Z) :
  encode tokenizer text false = Ok ids ->
  len ids > MAX_TOKENS tokenizer ->
  truncate_text tokenizer text =
    ([EvEncode text false;
      EvDecode (slice_to ids (MAX_TOKENS tokenizer)) true],
     decode tokenizer (slice_to ids (MAX_TOKENS tokenizer)) true).
Proof.
  intros He Hgt. unfold truncate_text, tokenizer_encode, perform.
  rewrite He, bind_ok.
  destruct (Z.gtb_spec (len ids) (MAX_TOKENS tokenizer)) as [_ | Hle];
    [reflexivity | lia].
Qed.

(** Whatever the tokenizer answers, the step asks it to encode once,
    to decode at most once, and neither generates nor prints. *)
Lemma truncate_text_calls :
  encode_calls (log (truncate_text tokenizer text)) = [text] /\
  (length (decode_calls (log (truncate_text tokenizer text))) <= 1)%nat /\
  generate_calls (log (truncate_text tokenizer text)) = [] /\
  printed (log (truncate_text tokenizer text)) = [].
Proof.
  destruct (encode tokenizer text false) as [ids | e] eqn:He.
  - destruct (Z.le_gt_cases (len ids) (MAX_TOKENS tokenizer)) as [H | H].
    + rewrite (truncate_text_fits ids He H). simpl. auto.
    + rewrite (truncate_text_cut ids He) by lia. simpl. auto.
  - rewrite (truncate_text_raise e He). simpl. auto.
Qed.

Lemma truncate_text_ok_iff (t : str) :
  outcome (truncate_text tokenizer text) = Ok t <->
  yields_text tokenizer text t.
Proof.
  unfold yields_text.
  destruct (encode tokenizer text false) as [ids | e] eqn:He.
  - destruct (Z.le_gt_cases (len ids) (MAX_TOKENS tokenizer)) as [H | H].
    + rewrite (truncate_text_fits ids He H). simpl. split.
      * intros [= <-]. exists ids. split; [reflexivity | now left].
      * intros (ids' & [= <-] & [[_ ->] | [Hgt _]]); [reflexivity | lia].
    + rewrite (truncate_text_cut ids He) by lia. simpl. split.
      * intros Hd. exists ids. split; [reflexivity | right]. split; [lia |].
        exact Hd.
      * intros (ids' & [= <-] & [[Hle _] | [_ Hd]]); [lia | exact Hd].
  - rewrite (truncate_text_raise e He). simpl. split.
    + discriminate.
    + intros (ids & Hids & _). discriminate.
Qed.

End Truncation.

(** ** One iteration (lines 20-43) *)

Section Iteration.

Variable tokenizer : Tokenizer.
Variable model : Pipeline.
Variable line : str.

Lemma is_empty_false (s : str) : s <> [] -> is_empty s = false.
Proof. now destruct s. Qed.

Lemma loop_body_blank :
  strip line = [] ->
  loop_body tokenizer model line = ([EvPrint None false], Ok tt).
Proof. intros H. unfold loop_body. now rewrite H. Qed.

(** The text was not obtained: the iteration stops there. *)
Lemma loop_body_no_text (l : list event) (e : exn) :
  strip line <> [] ->
  truncate_text tokenizer (strip line) = (l, Raise e) ->
  loop_body tokenizer model line = (l, Raise e).
Proof.
  intros Hne Ht. unfold loop_body.
  now rewrite (is_empty_false _ Hne), Ht.
Qed.

Section WithText.

Variable l : list event.
Variable t : str.
Hypothesis Hne : strip line <> [].
Hypothesis Ht : truncate_text tokenizer (strip line) = (l, Ok t).

Lemma loop_body_model_raises (e : exn) :
  model (request t) = Raise e ->
  loop_body tokenizer model line =
    (l ++ [EvGenerate (request t)], Raise e).
Proof.
  intros Hm. unfold loop_body.
  rewrite (is_empty_false _ Hne), Ht, bind_ok.
  unfold call_model, perform. now rewrite Hm.
Qed.

Lemma loop_body_no_candidate :
  model (request t) = Ok [] ->
  loop_body tokenizer model line =
    (l ++ [EvGenerate (request t)], Raise IndexError).
Proof.
  intros Hm. unfold loop_body.
  rewrite (is_empty_false _ Hne), Ht, bind_ok.
  unfold call_model, perform. now rewrite Hm.
Qed.

Lemma loop_body_no_key (d : dict) (rest : list dict) (e : exn) :
  model (request t) = Ok (d :: rest) ->
  dict_get d "generated_text" = Raise e ->
  loop_body tokenizer model line =
    (l ++ [EvGenerate (request t)], Raise e).
Proof.
  intros Hm Hd. unfold loop_body.
  rewrite (is_empty_false _ Hne), Ht, bind_ok.
  unfold call_model, perform. rewrite Hm. simpl. now rewrite Hd.
Qed.

Lemma loop_body_prints (d : dict) (rest : list dict) (s : str) :
  model (request t) = Ok (d :: rest) ->
  dict_get d "generated_text" = Ok s ->
  loop_body tokenizer model line =
    (l ++ [EvGenerate (request t); EvPrint (Some s) true], Ok tt).
Proof.
  intros Hm Hd. unfold loop_body.
  rewrite (is_empty_false _ Hne), Ht, bind_ok.
  unfold call_model, perform. rewrite Hm. simpl. now rewrite Hd.
Qed.

(** With the text in hand the iteration calls the pipeline, and
    after that it either prints one flushed line and succeeds or
    prints nothing and raises. *)
Lemma loop_body_with_text :
  (exists s,
     loop_body tokenizer model line =
       (l ++ [EvGenerate (request t); EvPrint (Some s) true], Ok tt))
  \/ (exists e,
     loop_body tokenizer model line =
       (l ++ [EvGenerate (request t)], Raise e)).
Proof.
  destruct (model (request t)) as [[| d rest] | e] eqn:Hm.
  - right. exists IndexError. exact (loop_body_no_candidate Hm).
  - destruct (dict_get d "generated_text") as [s | e] eqn:Hd.
    + left. exists s. exact (loop_body_prints d rest s Hm Hd).
    + right. exists e. exact (loop_body_no_key d rest e Hm Hd).
  - right. exists e. exact (loop_body_model_raises e Hm).
Qed.

End WithText.

End Iteration.

(** ** Calls made by one iteration *)

Lemma generate_calls_app (l1 l2 : list event) :
  generate_calls (l1 ++ l2) = generate_calls l1 ++ generate_calls l2.
Proof.
  induction l1 as [| e l1 IH]; [reflexivity |].
  destruct e; simpl; now rewrite ?IH.
Qed.

Lemma decode_calls_app (l1 l2 : list event) :
  decode_calls (l1 ++ l2) = decode_calls l1 ++ decode_calls l2.
Proof.
  induction l1 as [| e l1 IH]; [reflexivity |].
  destruct e; simpl; now rewrite ?IH.
Qed.

Lemma encode_calls_app (l1 l2 : list event) :
  encode_calls (l1 ++ l2) = encode_calls l1 ++ encode_calls l2.
Proof.
  induction l1 as [| e l1 IH]; [reflexivity |].
  destruct e; simpl; now rewrite ?IH.
Qed.

Section Calls.

Variable tokenizer : Tokenizer.
Variable model : Pipeline.
Variable line : str.
Hypothesis Hne : strip line <> [].

(** The pipeline is called with the request built from the text as
    soon as there is a text, and not otherwise. *)
Lemma generate_calls_loop_body :
  generate_calls (log (loop_body tokenizer model line)) =
    match outcome (truncate_text tokenizer (strip line)) with
    | Ok t => [request t]
    | Raise _ => []
    end.
Proof.
  destruct (truncate_text_calls tokenizer (strip line))
    as (_ & _ & Hg & _).
  destruct (truncate_text tokenizer (strip line)) as [l [t | e]] eqn:Ht;
    simpl in *.
  - destruct (loop_body_with_text tokenizer model line l t Hne Ht)
      as [[s ->] | [e ->]];
      simpl; rewrite generate_calls_app, Hg; reflexivity.
  - now rewrite (loop_body_no_text tokenizer model line l e Hne Ht).
Qed.

Lemma decode_calls_loop_body :
  decode_calls (log (loop_body tokenizer model line)) =
  decode_calls (log (truncate_text tokenizer (strip line))).
Proof.
  destruct (truncate_text tokenizer (strip line)) as [l [t | e]] eqn:Ht;
    simpl in *.
  - destruct (loop_body_with_text tokenizer model line l t Hne Ht)
      as [[s ->] | [e ->]];
      simpl; rewrite decode_calls_app; simpl; now rewrite app_nil_r.
  - now rewrite (loop_body_no_text tokenizer model line l e Hne Ht).
Qed.

Lemma encode_calls_loop_body :
  encode_calls (log (loop_body tokenizer model line)) = [strip line].
Proof.
  destruct (truncate_text_calls tokenizer (strip line))
    as (He & _ & _ & _).
  destruct (truncate_text tokenizer (strip line)) as [l [t | e]] eqn:Ht;
    simpl in *.
  - destruct (loop_body_with_text tokenizer model line l t Hne Ht)
      as [[s ->] | [e ->]];
      simpl; rewrite encode_calls_app, He; reflexivity.
  - now rewrite (loop_body_no_text tokenizer model line l e Hne Ht).
Qed.

(** An iteration that raises has printed nothing; one that succeeds
    has printed exactly one line. *)
Lemma printed_loop_body :
  match outcome (loop_body tokenizer model line) with
  | Ok _ => exists o, printed (log (loop_body tokenizer model line)) = [o]
  | Raise _ => printed (log (loop_body tokenizer model line)) = []
  end.
Proof.
  destruct (truncate_text_calls tokenizer (strip line))
    as (_ & _ & _ & Hp).
  destruct (truncate_text tokenizer (strip line)) as [l [t | e]] eqn:Ht;
    simpl in *.
  - destruct (loop_body_with_text tokenizer model line l t Hne Ht)
      as [[s ->] | [e ->]];
      simpl; rewrite printed_app, Hp; simpl; eauto.
  - now rewrite (loop_body_no_text tokenizer model line l e Hne Ht).
Qed.

(** The first thing the iteration does is to ask for the encoding of
    the stripped line. *)
Lemma loop_body_first_event :
  exists l,
    log (loop_body tokenizer model line) = EvEncode (strip line) false :: l.
Proof.
  assert (Hl : exists l,
             log (truncate_text tokenizer (strip line)) =
               EvEncode (strip line) false :: l).
  { destruct (encode tokenizer (strip line) false) as [ids | e] eqn:He.
    - destruct (Z.le_gt_cases (len ids) (MAX_TOKENS tokenizer)) as [H | H].
      + rewrite (truncate_text_fits tokenizer _ ids He H). simpl. eauto.
      + rewrite (truncate_text_cut tokenizer _ ids He) by lia.
        simpl. eauto.
    - rewrite (truncate_text_raise tokenizer _ e He). simpl. eauto. }
  destruct Hl as [l0 Hl0].
  destruct (truncate_text tokenizer (strip line)) as [l [t | e]] eqn:Ht;
    simpl in Hl0; subst l.
  - destruct (loop_body_with_text tokenizer model line _ t Hne Ht)
      as [[s ->] | [e ->]]; simpl; eauto.
  - rewrite (loop_body_no_text tokenizer model line _ e Hne Ht).
    simpl; eauto.
Qed.

(** The iteration succeeds exactly when the collaborators answer
    everything it asks. *)
Lemma loop_body_ok_nonblank :
  outcome (loop_body tokenizer model line) = Ok tt <->
  exists t d rest s,
    yields_text tokenizer (strip line) t /\
    model (request t) = Ok (d :: rest) /\
    dict_get d "generated_text" = Ok s.
Proof.
  destruct (truncate_text tokenizer (strip line)) as [l [t | e]] eqn:Ht.
  - assert (Hy : yields_text tokenizer (strip line) t)
      by (apply truncate_text_ok_iff; now rewrite Ht).
    destruct (model (request t)) as [[| d rest] | e] eqn:Hm.
    + rewrite (loop_body_no_candidate tokenizer model line l t Hne Ht Hm).
      split; [discriminate |].
      intros (t' & d & rest & s & Hy' & Hm' & _).
      apply truncate_text_ok_iff in Hy'. rewrite Ht in Hy'.
      injection Hy' as <-. congruence.
    + destruct (dict_get d "generated_text") as [s | e] eqn:Hd.
      * rewrite (loop_body_prints tokenizer model line l t Hne Ht d rest
                   s Hm Hd).
        split; [| reflexivity]. intros _. now exists t, d, rest, s.
      * rewrite (loop_body_no_key tokenizer model line l t Hne Ht d rest
                   e Hm Hd).
        split; [discriminate |].
        intros (t' & d' & rest' & s & Hy' & Hm' & Hd').
        apply truncate_text_ok_iff in Hy'. rewrite Ht in Hy'.
        injection Hy' as <-. congruence.
    + rewrite (loop_body_model_raises tokenizer model line l t Hne Ht e
                 Hm).
      split; [discriminate |].
      intros (t' & d & rest & s & Hy' & Hm' & _).
      apply truncate_text_ok_iff in Hy'. rewrite Ht in Hy'.
      injection Hy' as <-. congruence.
  - rewrite (loop_body_no_text tokenizer model line l e Hne Ht).
    split; [discriminate |].
    intros (t & _ & _ & _ & Hy & _).
    apply truncate_text_ok_iff in Hy. rewrite Ht in Hy. discriminate.
Qed.

End Calls.

Lemma loop_body_ok_iff (tokenizer : Tokenizer) (model : Pipeline)
  (line : str) :
  outcome (loop_body tokenizer model line) = Ok tt <->
  processable tokenizer model line.
Proof.
  unfold processable.
  destruct (strip line) as [| c text] eqn:Hs.
  - rewrite (loop_body_blank tokenizer model line Hs).
    split; [now left | reflexivity].
  - assert (Hne : strip line <> []) by now rewrite Hs.
    rewrite (loop_body_ok_nonblank tokenizer model line Hne), Hs.
    split; [now right | now intros [Hnil | H]].
Qed.

(** Collaborators that never fail can process every line. *)
Lemma reliable_processable (tokenizer : Tokenizer) (model : Pipeline)
  (line : str) :
  reliable tokenizer model -> processable tokenizer model line.
Proof.
  intros (Henc & Hdec & Hgen).
  destruct (strip line) as [| c text] eqn:Hs; [now left | right].
  destruct (Henc (strip line)) as [ids Hids].
  destruct (Z.le_gt_cases (len ids) (MAX_TOKENS tokenizer)) as [H | H].
  - destruct (Hgen (request (strip line))) as (d & rest & s & Hm & Hd).
    exists (strip line), d, rest, s.
    split; [| now split]. exists ids. split; [exact Hids | now left].
  - destruct (Hdec (slice_to ids (MAX_TOKENS tokenizer))) as [t Ht].
    destruct (Hgen (request t)) as (d & rest & s & Hm & Hd).
    exists t, d, rest, s.
    split; [| now split]. exists ids. split; [exact Hids | right].
    split; [lia | exact Ht].
Qed.

(** ** C1: the length budget *)

(** C1.  For a line that is not blank, every request the pipeline
    receives carries [max_length = max(word_count * 2, 5)] and
    [min_length = 1], where [word_count] counts the whitespace-separated
    words of the very text the request carries; so [max_length] is at
    least 5, and it is 5 when that text is a single word.  Such a
    request is made, with the text [t], as soon as the tokenizer yields
    [t]; and a single-word line that fits the tokenizer's capacity is
    requested with [max_length = 5]. *)
Theorem length_budget (tokenizer : Tokenizer) (model : Pipeline)
  (line : str) :
  strip line <> [] ->
  (forall g,
      In g (generate_calls (log (loop_body tokenizer model line))) ->
      max_length g = Z.max (len (split (inputs g)) * 2) 5 /\
      min_length g = 1 /\
      5 <= max_length g /\
      (single_word (inputs g) -> max_length g = 5)) /\
  (forall t,
      yields_text tokenizer (strip line) t ->
      exists g,
        generate_calls (log (loop_body tokenizer model line)) = [g] /\
        inputs g = t) /\
  (forall ids,
      single_word (strip line) ->
      encode tokenizer (strip line) false = Ok ids ->
      len ids <= MAX_TOKENS tokenizer ->
      map max_length
        (generate_calls (log (loop_body tokenizer model line))) = [5]).
Proof.
  intros Hne.
  rewrite (generate_calls_loop_body tokenizer model line Hne).
  split; [| split].
  - intros g Hg.
    destruct (outcome (truncate_text tokenizer (strip line))) as [t | e];
      [| contradiction].
    destruct Hg as [<- | []]. simpl.
    repeat split.
    + apply max_len_floor.
    + apply max_len_single_word.
  - intros t Hy. apply truncate_text_ok_iff in Hy. rewrite Hy.
    exists (request t). split; reflexivity.
  - intros ids Hw He Hle.
    rewrite (truncate_text_fits tokenizer (strip line) ids He Hle).
    simpl. now rewrite (max_len_single_word _ Hw).
Qed.

(** ** C3: blank lines *)

(** C3.  A line that is empty once stripped makes the script print an
    empty line and nothing else: the tokenizer is asked neither to
    encode nor to decode, and the pipeline is not called. *)
Theorem blank_line_identity (tokenizer : Tokenizer) (model : Pipeline)
  (line : str) :
  strip line = [] ->
  let run := loop_body tokenizer model line in
  outcome run = Ok tt /\
  printed (log run) = [[]] /\
  encode_calls (log run) = [] /\
  decode_calls (log run) = [] /\
  generate_calls (log run) = [] /\
  length (log run) = 1%nat.
Proof.
  intros H run. subst run.
  rewrite (loop_body_blank tokenizer model line H).
  simpl. repeat split.
Qed.

(** ** C10: only the stripped text matters *)

(** C10.  Two raw lines with the same stripped text are processed
    alike: the same calls to the tokenizer and to the pipeline with the
    same arguments, the same printed line, the same outcome. *)
Theorem stripped_text_determines_run (tokenizer : Tokenizer)
  (model : Pipeline) (line1 line2 : str) :
  strip line1 = strip line2 ->
  loop_body tokenizer model line1 = loop_body tokenizer model line2 /\
  printed (log (loop_body tokenizer model line1)) =
    printed (log (loop_body tokenizer model line2)).
Proof.
  intros H.
  assert (E : loop_body tokenizer model line1 =
              loop_body tokenizer model line2).
  { unfold loop_body. now rewrite H. }
  split; [exact E | now rewrite E].
Qed.

(** ** The loop (line 19) *)

Section Loop.

Variable tokenizer : Tokenizer.
Variable model : Pipeline.

Lemma outcome_unit (m : M unit) (u : unit) :
  outcome m = Ok u -> outcome m = Ok tt.
Proof. now destruct u. Qed.

Lemma main_cons_ok (line : str) (rest : list str) :
  outcome (loop_body tokenizer model line) = Ok tt ->
  main tokenizer model (line :: rest) =
    (log (loop_body tokenizer model line) ++
       log (main tokenizer model rest),
     outcome (main tokenizer model rest)).
Proof.
  intros H. simpl.
  rewrite (M_eta (loop_body tokenizer model line)), H.
  exact (bind_ok _ tt (fun _ => main tokenizer model rest)).
Qed.

Lemma main_cons_raise (line : str) (rest : list str) (e : exn) :
  outcome (loop_body tokenizer model line) = Raise e ->
  main tokenizer model (line :: rest) =
    (log (loop_body tokenizer model line), Raise e).
Proof.
  intros H. simpl.
  rewrite (M_eta (loop_body tokenizer model line)), H.
  apply bind_raise.
Qed.

Lemma main_app_ok (before rest : list str) :
  outcome (main tokenizer model before) = Ok tt ->
  main tokenizer model (before ++ rest) =
    (log (main tokenizer model before) ++ log (main tokenizer model rest),
     outcome (main tokenizer model rest)).
Proof.
  induction before as [| line before IH]; intros H.
  - simpl. apply M_eta.
  - destruct (outcome (loop_body tokenizer model line)) as [[] | e] eqn:Hb.
    + rewrite (main_cons_ok line before Hb) in *. simpl in H.
      rewrite <- app_comm_cons, (main_cons_ok line (before ++ rest) Hb).
      rewrite (IH H). simpl. now rewrite app_assoc.
    + rewrite (main_cons_raise line before e Hb) in H. discriminate.
Qed.

(** The run succeeds exactly when every iteration does. *)
Lemma main_ok_iff (stdin : list str) :
  outcome (main tokenizer model stdin) = Ok tt <->
  Forall (fun line => outcome (loop_body tokenizer model line) = Ok tt)
    stdin.
Proof.
  induction stdin as [| line rest IH]; [now split |].
  destruct (outcome (loop_body tokenizer model line)) as [[] | e] eqn:Hb.
  - rewrite (main_cons_ok line rest Hb). simpl. rewrite IH.
    split; [now constructor | now inversion 1].
  - rewrite (main_cons_raise line rest e Hb). simpl.
    split; [discriminate |].
    inversion 1; congruence.
Qed.

(** Every iteration, blank line or not, prints one line when it
    succeeds and none when it raises. *)
Lemma loop_body_one_line (line : str) :
  match outcome (loop_body tokenizer model line) with
  | Ok _ => exists o, printed (log (loop_body tokenizer model line)) = [o]
  | Raise _ => printed (log (loop_body tokenizer model line)) = []
  end.
Proof.
  destruct (strip line) as [| c s] eqn:Hs.
  - rewrite (loop_body_blank tokenizer model line Hs). simpl. eauto.
  - apply printed_loop_body. now rewrite Hs.
Qed.

(** A run never prints more lines than it has read. *)
Lemma printed_main_le (stdin : list str) :
  (length (printed (log (main tokenizer model stdin))) <= length stdin)%nat.
Proof.
  induction stdin as [| line rest IH]; [simpl; lia |].
  pose proof (loop_body_one_line line) as H1.
  destruct (outcome (loop_body tokenizer model line)) as [[] | e] eqn:Hb.
  - rewrite (main_cons_ok line rest Hb). simpl.
    destruct H1 as [o Ho]. rewrite printed_app, Ho. simpl. lia.
  - rewrite (main_cons_raise line rest e Hb). simpl. rewrite H1.
    simpl. lia.
Qed.

End Loop.

(** ** C4: one output line per input line, in order *)

(** C4.  Take a finite input of N lines, each of them processable:
    the collaborators answer what the script asks of them for it.  Then
    the run ends normally, it prints exactly N lines, and the i-th
    printed line is the line that processing the i-th input line on its
    own prints. *)
Theorem order_preservation (tokenizer : Tokenizer) (model : Pipeline)
  (stdin : list str) :
  Forall (processable tokenizer model) stdin ->
  outcome (main tokenizer model stdin) = Ok tt /\
  length (printed (log (main tokenizer model stdin))) = length stdin /\
  forall (i : nat) (line : str),
    nth_error stdin i = Some line ->
    exists o,
      printed (log (loop_body tokenizer model line)) = [o] /\
      nth_error (printed (log (main tokenizer model stdin))) i = Some o.
Proof.
  intros Hall.
  assert (Hok : Forall
            (fun line => outcome (loop_body tokenizer model line) = Ok tt)
            stdin).
  { eapply Forall_impl; [| exact Hall].
    intros line. apply loop_body_ok_iff. }
  clear Hall.
  split; [now apply main_ok_iff |].
  induction Hok as [| line rest Hb Hrest [IHlen IHnth]].
  - split; [reflexivity |]. intros [| i] line H; discriminate.
  - rewrite (main_cons_ok tokenizer model line rest Hb). simpl.
    pose proof (loop_body_one_line tokenizer model line) as H1.
    rewrite Hb in H1. destruct H1 as [o Ho].
    rewrite printed_app, Ho. simpl.
    split; [now rewrite IHlen |].
    intros [| i] line' Hnth; simpl in *.
    + injection Hnth as <-. exists o. now split.
    + now apply IHnth.
Qed.

(** ** C8: failures are not handled *)

(** C8.  Take a line that is not blank, read after lines that were
    all processed.  An exception raised by [encode], by [decode] or by
    the pipeline is the outcome of its iteration, and a pipeline that
    returns no candidate makes the iteration raise [IndexError].  An
    iteration that raises has printed nothing, has called [encode],
    [decode] and the pipeline at most once each (no retry), and ends
    the run with the same exception: the lines after it are not read. *)
Theorem failure_aborts_run (tokenizer : Tokenizer) (model : Pipeline)
  (before after : list str) (line : str) :
  strip line <> [] ->
  Forall (processable tokenizer model) before ->
  let run := loop_body tokenizer model line in
  (forall e,
      encode tokenizer (strip line) false = Raise e ->
      run = ([EvEncode (strip line) false], Raise e)) /\
  (forall ids e,
      encode tokenizer (strip line) false = Ok ids ->
      len ids > MAX_TOKENS tokenizer ->
      decode tokenizer (slice_to ids (MAX_TOKENS tokenizer)) true =
        Raise e ->
      outcome run = Raise e) /\
  (forall t e,
      yields_text tokenizer (strip line) t ->
      model (request t) = Raise e ->
      outcome run = Raise e) /\
  (forall t,
      yields_text tokenizer (strip line) t ->
      model (request t) = Ok [] ->
      outcome run = Raise IndexError) /\
  (forall e,
      outcome run = Raise e ->
      printed (log run) = [] /\
      (length (encode_calls (log run)) <= 1)%nat /\
      (length (decode_calls (log run)) <= 1)%nat /\
      (length (generate_calls (log run)) <= 1)%nat /\
      main tokenizer model (before ++ line :: after) =
        (log (main tokenizer model before) ++ log run, Raise e)).
Proof.
  intros Hne Hall run. subst run.
  assert (Hbefore : outcome (main tokenizer model before) = Ok tt).
  { apply main_ok_iff. eapply Forall_impl; [| exact Hall].
    intros l. apply loop_body_ok_iff. }
  split; [| split; [| split; [| split]]].
  - intros e He.
    apply (loop_body_no_text tokenizer model line _ e Hne).
    now apply truncate_text_raise.
  - intros ids e He Hgt Hd.
    rewrite (loop_body_no_text tokenizer model line
               [EvEncode (strip line) false;
                EvDecode (slice_to ids (MAX_TOKENS tokenizer)) true]
               e Hne); [reflexivity |].
    now rewrite (truncate_text_cut tokenizer (strip line) ids He Hgt), Hd.
  - intros t e Ht Hm. apply truncate_text_ok_iff in Ht.
    assert (Hl : truncate_text tokenizer (strip line) =
                 (log (truncate_text tokenizer (strip line)), Ok t))
      by (rewrite <- Ht; apply M_eta).
    now rewrite (loop_body_model_raises tokenizer model line _ t Hne Hl
                   e Hm).
  - intros t Ht Hm. apply truncate_text_ok_iff in Ht.
    assert (Hl : truncate_text tokenizer (strip line) =
                 (log (truncate_text tokenizer (strip line)), Ok t))
      by (rewrite <- Ht; apply M_eta).
    now rewrite (loop_body_no_candidate tokenizer model line _ t Hne Hl
                   Hm).
  - intros e He.
    split; [| split; [| split; [| split]]].
    + pose proof (printed_loop_body tokenizer model line Hne) as Hp.
      now rewrite He in Hp.
    + rewrite (encode_calls_loop_body tokenizer model line Hne).
      simpl. lia.
    + rewrite (decode_calls_loop_body tokenizer model line Hne).
      apply truncate_text_calls.
    + rewrite (generate_calls_loop_body tokenizer model line Hne).
      destruct (outcome (truncate_text tokenizer (strip line)));
        simpl; lia.
    + rewrite (main_app_ok tokenizer model before (line :: after)
                 Hbefore).
      now rewrite (main_cons_raise tokenizer model line after e He).
Qed.

(** ** C2, C9, C5: truncation *)

Section Truncated.

Variable tokenizer : Tokenizer.
Variable model : Pipeline.
Variable line : str.
Variable ids : list Z.
Hypothesis Hne : strip line <> [].
Hypothesis Hids : encode tokenizer (strip line) false = Ok ids.

Lemma decode_calls_cut :
  len ids > MAX_TOKENS tokenizer ->
  decode_calls (log (loop_body tokenizer model line)) =
    [slice_to ids (MAX_TOKENS tokenizer)].
Proof.
  intros Hgt.
  rewrite (decode_calls_loop_body tokenizer model line Hne).
  now rewrite (truncate_text_cut tokenizer (strip line) ids Hids Hgt).
Qed.

Lemma decode_event_cut :
  len ids > MAX_TOKENS tokenizer ->
  In (EvDecode (slice_to ids (MAX_TOKENS tokenizer)) true)
    (log (loop_body tokenizer model line)).
Proof.
  intros Hgt.
  pose proof (truncate_text_cut tokenizer (strip line) ids Hids Hgt) as Ht.
  destruct (decode tokenizer (slice_to ids (MAX_TOKENS tokenizer)) true)
    as [t | e] eqn:Hd.
  - destruct (loop_body_with_text tokenizer model line _ t Hne Ht)
      as [[s ->] | [e ->]]; simpl; auto.
  - rewrite (loop_body_no_text tokenizer model line _ e Hne Ht).
    simpl; auto.
Qed.

Lemma generate_calls_cut (t : str) :
  len ids > MAX_TOKENS tokenizer ->
  decode tokenizer (slice_to ids (MAX_TOKENS tokenizer)) true = Ok t ->
  generate_calls (log (loop_body tokenizer model line)) = [request t].
Proof.
  intros Hgt Hd.
  rewrite (generate_calls_loop_body tokenizer model line Hne).
  now rewrite (truncate_text_cut tokenizer (strip line) ids Hids Hgt), Hd.
Qed.

Lemma generate_calls_fits :
  len ids <= MAX_TOKENS tokenizer ->
  generate_calls (log (loop_body tokenizer model line)) =
    [request (strip line)].
Proof.
  intros Hle.
  rewrite (generate_calls_loop_body tokenizer model line Hne).
  now rewrite (truncate_text_fits tokenizer (strip line) ids Hids Hle).
Qed.

Lemma decode_calls_fits :
  len ids <= MAX_TOKENS tokenizer ->
  decode_calls (log (loop_body tokenizer model line)) = [].
Proof.
  intros Hle.
  rewrite (decode_calls_loop_body tokenizer model line Hne).
  now rewrite (truncate_text_fits tokenizer (strip line) ids Hids Hle).
Qed.

End Truncated.

(** C2, as the code has it.  Take a line that is not blank and whose
    tokenizer has a capacity that is not negative.  When its token
    sequence is longer than [MAX_TOKENS], the sequence decoded (with
    special tokens skipped) is the first [MAX_TOKENS] tokens, a sequence
    of at most [MAX_TOKENS] tokens, and the text given to the pipeline
    is its decoding.  When the token sequence has at most [MAX_TOKENS]
    tokens, nothing is decoded and the text given to the pipeline is the
    stripped line itself. *)
Theorem effective_text_truncation (tokenizer : Tokenizer) (model : Pipeline)
  (line : str) (ids : list Z) :
  0 <= MAX_TOKENS tokenizer ->
  strip line <> [] ->
  encode tokenizer (strip line) false = Ok ids ->
  let run := loop_body tokenizer model line in
  let prefix := firstn (Z.to_nat (MAX_TOKENS tokenizer)) ids in
  (len ids > MAX_TOKENS tokenizer ->
     In (EvDecode prefix true) (log run) /\
     decode_calls (log run) = [prefix] /\
     len prefix <= MAX_TOKENS tokenizer /\
     forall t,
       decode tokenizer prefix true = Ok t ->
       map inputs (generate_calls (log run)) = [t]) /\
  (len ids <= MAX_TOKENS tokenizer ->
     decode_calls (log run) = [] /\
     map inputs (generate_calls (log run)) = [strip line]).
Proof.
  intros Hcap Hne Hids run prefix. subst run prefix.
  rewrite <- (slice_to_firstn ids (MAX_TOKENS tokenizer) Hcap).
  split.
  - intros Hgt. split; [| split; [| split]].
    + now apply decode_event_cut.
    + now apply decode_calls_cut.
    + now apply slice_to_len_le.
    + intros t Hd.
      now rewrite (generate_calls_cut tokenizer model line ids Hne Hids
                     t Hgt Hd).
  - intros Hle. split.
    + now apply (decode_calls_fits tokenizer model line ids).
    + now rewrite (generate_calls_fits tokenizer model line ids Hne Hids
                     Hle).
Qed.

(** C9.  For a line whose token sequence is longer than [MAX_TOKENS]
    (a capacity that is not negative), exactly one sequence is handed
    to [decode]: the first [MAX_TOKENS] tokens, whose length is
    [MAX_TOKENS] exactly. *)
Theorem truncated_length_exact (tokenizer : Tokenizer) (model : Pipeline)
  (line : str) (ids : list Z) :
  0 <= MAX_TOKENS tokenizer ->
  strip line <> [] ->
  encode tokenizer (strip line) false = Ok ids ->
  len ids > MAX_TOKENS tokenizer ->
  exists truncated,
    decode_calls (log (loop_body tokenizer model line)) = [truncated] /\
    truncated = firstn (Z.to_nat (MAX_TOKENS tokenizer)) ids /\
    len truncated = MAX_TOKENS tokenizer.
Proof.
  intros Hcap Hne Hids Hgt.
  exists (slice_to ids (MAX_TOKENS tokenizer)).
  split; [| split].
  - now apply decode_calls_cut.
  - now apply slice_to_firstn.
  - apply slice_to_len_exact; lia.
Qed.

(** C5.  For a line that is not blank and whose token sequence is
    longer than [MAX_TOKENS], the one request the pipeline receives
    carries the decoded prefix [t] and the budget computed from the
    words of [t]. *)
Theorem budget_from_truncated_text (tokenizer : Tokenizer)
  (model : Pipeline) (line : str) (ids : list Z) (t : str) :
  strip line <> [] ->
  encode tokenizer (strip line) false = Ok ids ->
  len ids > MAX_TOKENS tokenizer ->
  decode tokenizer (slice_to ids (MAX_TOKENS tokenizer)) true = Ok t ->
  generate_calls (log (loop_body tokenizer model line)) =
    [{| inputs := t;
        max_length := Z.max (len (split t) * 2) 5;
        min_length := 1;
        do_sample := false;
        truncation := true |}].
Proof.
  intros Hne Hids Hgt Hd.
  exact (generate_calls_cut tokenizer model line ids Hne Hids t Hgt Hd).
Qed.

(** ** C7: the call to the pipeline *)

(** C7.  For a line that is not blank and for which the tokenizer
    yields the text [t], the pipeline is called exactly once, with [t],
    without sampling and with its own truncation switched on; when the
    line was too long this comes on top of the cut of the token
    sequence made before.  When the pipeline answers with candidates,
    the iteration prints the ["generated_text"] of the first one, and
    nothing else. *)
Theorem generator_called_once (tokenizer : Tokenizer) (model : Pipeline)
  (line t : str) :
  strip line <> [] ->
  yields_text tokenizer (strip line) t ->
  let run := loop_body tokenizer model line in
  (exists g,
      generate_calls (log run) = [g] /\
      inputs g = t /\ do_sample g = false /\ truncation g = true /\
      (forall d rest s,
          model g = Ok (d :: rest) ->
          dict_get d "generated_text" = Ok s ->
          outcome run = Ok tt /\ printed (log run) = [s])) /\
  (forall ids,
      encode tokenizer (strip line) false = Ok ids ->
      len ids > MAX_TOKENS tokenizer ->
      In (EvDecode (slice_to ids (MAX_TOKENS tokenizer)) true) (log run)).
Proof.
  intros Hne Ht run. subst run.
  apply truncate_text_ok_iff in Ht. split.
  - exists (request t).
    rewrite (generate_calls_loop_body tokenizer model line Hne), Ht.
    repeat (split; [reflexivity |]).
    intros d rest s Hm Hd.
    assert (Hl : truncate_text tokenizer (strip line) =
                 (log (truncate_text tokenizer (strip line)), Ok t))
      by (rewrite <- Ht; apply M_eta).
    rewrite (loop_body_prints tokenizer model line _ t Hne Hl d rest s
               Hm Hd).
    split; [reflexivity |]. simpl.
    rewrite printed_app.
    destruct (truncate_text_calls tokenizer (strip line))
      as (_ & _ & _ & Hp).
    now rewrite Hp.
  - intros ids Hids Hgt.
    now apply decode_event_cut.
Qed.

(** C2 as the specification words it does not hold: the text given to
    the pipeline is decoded from at most [MAX_TOKENS] tokens, but its
    own token count can exceed [MAX_TOKENS].  With a capacity of 2 the
    line [abc] is encoded as four tokens, cut to the two tokens of
    [ab], and [ab] is encoded as three tokens: the end-of-sequence
    token comes back. *)
Lemma token_count_counterexample :
  strip line_abc <> [] /\
  encode (char_tokenizer 2) (strip line_abc) false = Ok [97; 98; 99; 1] /\
  len [97; 98; 99; 1] > MAX_TOKENS (char_tokenizer 2) /\
  map inputs
    (generate_calls (log (loop_body (char_tokenizer 2) echo_model
                            line_abc))) = [py "ab"] /\
  encode (char_tokenizer 2) (py "ab") false = Ok [97; 98; 1] /\
  ~ effective_text_fits (char_tokenizer 2) echo_model line_abc.
Proof.
  split; [vm_compute; discriminate |].
  split; [reflexivity |].
  split; [reflexivity |].
  split; [reflexivity |].
  split; [reflexivity |].
  intros H.
  specialize (H (request (py "ab")) [97; 98; 1]).
  assert (Hlen : len [97; 98; 1] <= MAX_TOKENS (char_tokenizer 2)).
  { apply H; [left |]; reflexivity. }
  vm_compute in Hlen. now apply Hlen.
Qed.

(** ** C6: flushing *)

Lemma stdout_after_app (lb : bool) (o : stdout) (l1 l2 : list event) :
  stdout_after lb o (l1 ++ l2) = stdout_after lb (stdout_after lb o l1) l2.
Proof. apply fold_left_app. Qed.

(** Whatever the buffering, the stream receives the printed lines in
    order, each followed by a newline. *)
Lemma stdout_after_text (lb : bool) (l : list event) (o : stdout) :
  delivered (stdout_after lb o l) ++ pending (stdout_after lb o l) =
    delivered o ++ pending o ++
      concat (map (fun s => s ++ [newline]) (printed l)).
Proof.
  unfold stdout_after.
  revert o. induction l as [| e l IH]; intros o.
  - simpl. now rewrite app_nil_r.
  - destruct e; simpl; try apply IH.
    rewrite IH.
    destruct (flush || lb); simpl; now rewrite <- ?app_assoc.
Qed.

(** Events that print nothing leave the stream as it is. *)
Lemma stdout_after_silent (lb : bool) (l : list event) (o : stdout) :
  printed l = [] -> stdout_after lb o l = o.
Proof.
  induction l as [| e l IH]; intros H; [reflexivity |].
  destruct e; simpl in *; try discriminate; now apply IH.
Qed.

(** The iteration of a line that is not blank, when it succeeds,
    leaves nothing in the buffer: line 43 prints with [flush=True]. *)
Lemma nonblank_line_flushed (tokenizer : Tokenizer) (model : Pipeline)
  (line : str) (lb : bool) (o : stdout) :
  strip line <> [] ->
  outcome (loop_body tokenizer model line) = Ok tt ->
  pending (stdout_after lb o (log (loop_body tokenizer model line))) = [].
Proof.
  intros Hne Hok.
  destruct (truncate_text_calls tokenizer (strip line))
    as (_ & _ & _ & Hp).
  destruct (truncate_text tokenizer (strip line)) as [l [t | e]] eqn:Ht;
    simpl in Hp.
  - destruct (loop_body_with_text tokenizer model line l t Hne Ht)
      as [[s Hs] | [e He]].
    + rewrite Hs. simpl. rewrite stdout_after_app.
      now rewrite (stdout_after_silent lb l o Hp).
    + rewrite He in Hok. discriminate.
  - rewrite (loop_body_no_text tokenizer model line l e Hne Ht) in Hok.
    discriminate.
Qed.

(** C6, on a blank line.  The empty line of line 22 is printed without
    [flush=True]: on a standard output that is not line-buffered the
    newline stays in the buffer when the iteration ends, and it is
    still there when the next line is taken up, here at the moment the
    tokenizer is asked to encode [ab].  (A line-buffered standard
    output, a terminal, hands the newline on by itself.) *)
Theorem blank_line_not_flushed (tokenizer : Tokenizer) (model : Pipeline) :
  log (loop_body tokenizer model [newline]) = [EvPrint None false] /\
  stdout_after false empty_stdout (log (loop_body tokenizer model [newline]))
    = {| delivered := []; pending := [newline] |} /\
  firstn 2 (log (main tokenizer model [[newline]; py "ab" ++ [newline]]))
    = [EvPrint None false; EvEncode (py "ab") false] /\
  stdout_after true empty_stdout (log (loop_body tokenizer model [newline]))
    = {| delivered := [newline]; pending := [] |}.
Proof.
  split; [reflexivity |].
  split; [reflexivity |].
  split; [| reflexivity].
  change (main tokenizer model [[newline]; py "ab" ++ [newline]])
    with (bind (loop_body tokenizer model [newline])
            (fun _ => main tokenizer model [py "ab" ++ [newline]])).
  rewrite (loop_body_blank tokenizer model [newline] eq_refl), bind_ok.
  assert (Hne : strip (py "ab" ++ [newline]) <> []) by run.
  destruct (loop_body_first_event tokenizer model _ Hne) as [l Hl].
  change (strip (py "ab" ++ [newline])) with (py "ab") in Hl.
  change (main tokenizer model [py "ab" ++ [newline]])
    with (bind (loop_body tokenizer model (py "ab" ++ [newline]))
            (fun _ => ret tt)).
  destruct (loop_body tokenizer model (py "ab" ++ [newline]))
    as [l0 [[] | e]]; simpl in Hl; subst l0; reflexivity.
Qed.

(** ** The theorems at work on sample input *)

(** The sample tokenizer and the echoing pipeline never fail. *)
Lemma sample_reliable (capacity : Z) :
  reliable (char_tokenizer capacity) echo_model.
Proof.
  split; [| split].
  - intros text. eexists. reflexivity.
  - intros ids. eexists. reflexivity.
  - intros g. do 3 eexists. split; reflexivity.
Qed.

Lemma length_budget_witness :
  strip line_hello = py "hello" /\
  map max_length
    (generate_calls (log (loop_body (char_tokenizer 512) echo_model
                            line_hello))) = [5].
Proof.
  split; [reflexivity |].
  assert (Hne : strip line_hello <> []) by run.
  apply (proj2 (proj2 (length_budget (char_tokenizer 512) echo_model
                         line_hello Hne))
           (map Z.of_N (py "hello") ++ [eos])).
  - split; [exact Hne | reflexivity].
  - reflexivity.
  - run.
Defined.

Lemma effective_text_truncation_witness :
  (decode_calls (log (loop_body (char_tokenizer 3) echo_model
                        line_four_words)) = [[97; 32; 98]] /\
   map inputs
     (generate_calls (log (loop_body (char_tokenizer 3) echo_model
                             line_four_words))) = [py "a b"]) /\
  map inputs
    (generate_calls (log (loop_body (char_tokenizer 512) echo_model
                            line_grammar))) = [strip line_grammar].
Proof.
  split.
  - assert (Hcap : 0 <= MAX_TOKENS (char_tokenizer 3)) by run.
    assert (Hne : strip line_four_words <> []) by run.
    destruct (effective_text_truncation (char_tokenizer 3) echo_model
                line_four_words [97; 32; 98; 32; 99; 32; 100; 1]
                Hcap Hne eq_refl) as [Hcut _].
    destruct (Hcut eq_refl) as (_ & Hdec & _ & Hgen).
    split; [exact Hdec | exact (Hgen (py "a b") eq_refl)].
  - assert (Hcap : 0 <= MAX_TOKENS (char_tokenizer 512)) by run.
    assert (Hne : strip line_grammar <> []) by run.
    destruct (effective_text_truncation (char_tokenizer 512) echo_model
                line_grammar (map Z.of_N (strip line_grammar) ++ [eos])
                Hcap Hne eq_refl) as [_ Hfits].
    apply Hfits. run.
Defined.

Lemma blank_line_identity_witness :
  strip line_blank = [] /\
  printed (log (loop_body (char_tokenizer 512) echo_model line_blank))
    = [[]] /\
  encode_calls (log (loop_body (char_tokenizer 512) echo_model line_blank))
    = [] /\
  generate_calls (log (loop_body (char_tokenizer 512) echo_model
                         line_blank)) = [].
Proof.
  split; [reflexivity |].
  destruct (blank_line_identity (char_tokenizer 512) echo_model line_blank
              eq_refl) as (_ & Hp & He & _ & Hg & _).
  split; [exact Hp | split; [exact He | exact Hg]].
Defined.

Lemma order_preservation_witness :
  outcome (main (char_tokenizer 512) echo_model three_lines) = Ok tt /\
  length (printed (log (main (char_tokenizer 512) echo_model three_lines)))
    = 3%nat /\
  nth_error
    (printed (log (main (char_tokenizer 512) echo_model three_lines))) 1
    = Some [].
Proof.
  assert (Hall : Forall (processable (char_tokenizer 512) echo_model)
                   three_lines)
    by (apply Forall_forall; intros line _;
        apply reliable_processable, sample_reliable).
  destruct (order_preservation (char_tokenizer 512) echo_model three_lines
              Hall) as (Hok & Hlen & Hnth).
  split; [exact Hok | split; [exact Hlen |]].
  destruct (Hnth 1%nat [newline] eq_refl) as (o & Ho & Hi).
  injection Ho as <-. exact Hi.
Defined.

Lemma budget_from_truncated_text_witness :
  generate_calls (log (loop_body (char_tokenizer 3) echo_model
                         line_four_words))
    = [{| inputs := py "a b"; max_length := 5; min_length := 1;
          do_sample := false; truncation := true |}] /\
  Z.max (len (split (strip line_four_words)) * 2) 5 = 8.
Proof.
  split; [| reflexivity].
  assert (Hne : strip line_four_words <> []) by run.
  exact (budget_from_truncated_text (char_tokenizer 3) echo_model
           line_four_words [97; 32; 98; 32; 99; 32; 100; 1] (py "a b")
           Hne eq_refl eq_refl eq_refl).
Defined.

Lemma generator_called_once_witness :
  length (generate_calls (log (loop_body (char_tokenizer 512) echo_model
                                 line_grammar))) = 1%nat /\
  map max_length
    (generate_calls (log (loop_body (char_tokenizer 512) echo_model
                            line_grammar))) = [12] /\
  printed (log (loop_body (char_tokenizer 512) echo_model line_grammar))
    = [strip line_grammar].
Proof.
  assert (Hne : strip line_grammar <> []) by run.
  assert (Hy : yields_text (char_tokenizer 512) (strip line_grammar)
                 (strip line_grammar)).
  { exists (map Z.of_N (strip line_grammar) ++ [eos]).
    split; [reflexivity | left]. split; [run | reflexivity]. }
  destruct (generator_called_once (char_tokenizer 512) echo_model
              line_grammar (strip line_grammar) Hne Hy)
    as [(g & Hg & Hin & _ & _ & Hout) _].
  split; [now rewrite Hg |].
  split; [reflexivity |].
  refine (proj2 (Hout [("generated_text"%string, strip line_grammar)]
                   [] (strip line_grammar) _ eq_refl)).
  unfold echo_model. now rewrite Hin.
Defined.

Lemma failure_aborts_run_witness :
  main failing_tokenizer echo_model
    ([[newline]] ++ (py "ab" ++ [newline]) :: [py "cd" ++ [newline]])
    = ([EvPrint None false; EvEncode (py "ab") false],
       Raise (LibraryError "encode")) /\
  outcome (loop_body (char_tokenizer 512) silent_model line_hello)
    = Raise IndexError /\
  outcome (loop_body (char_tokenizer 512) failing_model line_hello)
    = Raise (LibraryError "generate").
Proof.
  assert (Hab : strip (py "ab" ++ [newline]) <> []) by run.
  assert (Hhello : strip line_hello <> []) by run.
  assert (Hblank : Forall (processable failing_tokenizer echo_model)
                     [[newline]])
    by (apply Forall_cons; [now left | apply Forall_nil]).
  assert (Hy : yields_text (char_tokenizer 512) (strip line_hello)
                 (py "hello")).
  { exists (map Z.of_N (py "hello") ++ [eos]).
    split; [reflexivity | left]. split; [run | reflexivity]. }
  split; [| split].
  - destruct (failure_aborts_run failing_tokenizer echo_model
                [[newline]] [py "cd" ++ [newline]] (py "ab" ++ [newline])
                Hab Hblank) as (_ & _ & _ & _ & Habort).
    destruct (Habort (LibraryError "encode") eq_refl)
      as (_ & _ & _ & _ & Hmain).
    exact Hmain.
  - destruct (failure_aborts_run (char_tokenizer 512) silent_model
                [] [] line_hello Hhello (Forall_nil _))
      as (_ & _ & _ & Hnone & _).
    exact (Hnone (py "hello") Hy eq_refl).
  - destruct (failure_aborts_run (char_tokenizer 512) failing_model
                [] [] line_hello Hhello (Forall_nil _))
      as (_ & _ & Hgen & _).
    exact (Hgen (py "hello") (LibraryError "generate") Hy eq_refl).
Defined.

Lemma truncated_length_exact_witness :
  exists truncated,
    decode_calls (log (loop_body (char_tokenizer 3) echo_model
                         line_four_words)) = [truncated] /\
    truncated = firstn 3 [97; 32; 98; 32; 99; 32; 100; 1] /\
    len truncated = 3.
Proof.
  assert (Hcap : 0 <= MAX_TOKENS (char_tokenizer 3)) by run.
  assert (Hne : strip line_four_words <> []) by run.
  exact (truncated_length_exact (char_tokenizer 3) echo_model
           line_four_words [97; 32; 98; 32; 99; 32; 100; 1]
           Hcap Hne eq_refl eq_refl).
Defined.

Lemma stripped_text_determines_run_witness :
  strip line_hello = strip (py "hello") /\
  loop_body (char_tokenizer 512) echo_model line_hello =
    loop_body (char_tokenizer 512) echo_model (py "hello").
Proof.
  split; [reflexivity |].
  exact (proj1 (stripped_text_determines_run (char_tokenizer 512)
                  echo_model line_hello (py "hello") eq_refl)).
Defined.

(** * Further properties of the script *)

(** ** Stripping *)

Lemma lstrip_app_space (ws s : str) :
  forallb isspace ws = true -> lstrip (ws ++ s) = lstrip s.
Proof.
  induction ws as [| c ws IH]; intros H; [reflexivity |].
  simpl in *. apply andb_true_iff in H as [Hc Hws].
  rewrite Hc. now apply IH.
Qed.

Lemma lstrip_app_kept (s t : str) :
  lstrip s <> [] -> lstrip (s ++ t) = lstrip s ++ t.
Proof.
  induction s as [| c s IH]; intros H; [now contradiction H |].
  simpl in *. destruct (isspace c); [now apply IH | reflexivity].
Qed.

Lemma rstrip_app_space (s ws : str) :
  forallb isspace ws = true -> rstrip (s ++ ws) = rstrip s.
Proof.
  intros H. unfold rstrip. rewrite rev_app_distr.
  rewrite lstrip_app_space; [reflexivity | now rewrite forallb_rev].
Qed.

(** [lstrip] removes a prefix of whitespace. *)
Lemma lstrip_split (s : str) :
  exists p, s = p ++ lstrip s /\ forallb isspace p = true.
Proof.
  induction s as [| c s (p & Hp & Hws)]; [now exists [] |].
  simpl. destruct (isspace c) eqn:Hc.
  - exists (c :: p). simpl. rewrite Hc, Hws. split; [now f_equal | easy].
  - now exists [].
Qed.

Lemma strip_pad (ws1 ws2 s : str) :
  forallb isspace ws1 = true ->
  forallb isspace ws2 = true ->
  strip (ws1 ++ s ++ ws2) = strip s.
Proof.
  intros H1 H2. unfold strip.
  rewrite (lstrip_app_space ws1 _ H1).
  destruct (lstrip s) as [| c t] eqn:Hs.
  - apply lstrip_nil_iff in Hs.
    assert (Hall : lstrip (s ++ ws2) = []).
    { apply lstrip_nil_iff. now rewrite forallb_app, Hs, H2. }
    now rewrite Hall.
  - rewrite lstrip_app_kept by now rewrite Hs.
    rewrite Hs. now apply rstrip_app_space.
Qed.

(** [strip] removes whitespace on both sides, and nothing else. *)
Lemma strip_split (s : str) :
  exists p q,
    s = p ++ strip s ++ q /\
    forallb isspace p = true /\ forallb isspace q = true.
Proof.
  destruct (lstrip_split s) as (p & Hp & Hws).
  destruct (lstrip_split (rev (lstrip s))) as (q & Hq & Hwq).
  exists p, (rev q). unfold strip, rstrip.
  split; [| split; [exact Hws | now rewrite forallb_rev]].
  rewrite <- rev_app_distr, <- Hq, rev_involutive. exact Hp.
Qed.

Lemma strip_idempotent (s : str) : strip (strip s) = strip s.
Proof.
  destruct (strip_split s) as (p & q & Hs & Hp & Hq).
  rewrite Hs at 2. symmetry. now apply strip_pad.
Qed.

Lemma last_rev_hd {A : Type} (l : list A) (d : A) :
  last l d = hd d (rev l).
Proof.
  destruct (rev l) as [| x r] eqn:Hr.
  - apply (f_equal (@rev A)) in Hr. rewrite rev_involutive in Hr.
    now subst l.
  - apply (f_equal (@rev A)) in Hr. rewrite rev_involutive in Hr.
    subst l. simpl. apply last_last.
Qed.

(** A stripped text that is not empty neither starts nor ends with
    whitespace. *)
Lemma strip_ends (s : str) :
  strip s <> [] ->
  isspace (hd 0%N (strip s)) = false /\
  isspace (last (strip s) 0%N) = false.
Proof.
  intros Hne. split.
  - destruct (lstrip_split (rev (lstrip s))) as (q & Hq & _).
    pose proof (lstrip_head s) as Hh.
    apply (f_equal (@rev char)) in Hq.
    rewrite rev_involutive, rev_app_distr in Hq.
    fold (rstrip (lstrip s)) in Hq. fold (strip s) in Hq.
    destruct (strip s) as [| c t]; [now contradiction Hne |].
    rewrite Hq in Hh. exact Hh.
  - rewrite last_rev_hd. unfold strip, rstrip in *.
    rewrite rev_involutive.
    pose proof (lstrip_head (rev (lstrip s))) as Hh.
    destruct (lstrip (rev (lstrip s))) as [| c t];
      [now contradiction Hne | exact Hh].
Qed.

(** ** The events of an iteration, one by one *)

Section Provenance.

Variable tokenizer : Tokenizer.
Variable model : Pipeline.

Lemma generate_and_print_eq (text : str) :
  generate_and_print model text =
    match first_text (model (request text)) with
    | Ok s => ([EvGenerate (request text); EvPrint (Some s) true], Ok tt)
    | Raise e => ([EvGenerate (request text)], Raise e)
    end.
Proof.
  unfold generate_and_print, call_model, perform, first_text.
  destruct (model (request text)) as [[| d rest] | e]; try reflexivity.
  simpl. now destruct (dict_get d "generated_text").
Qed.

Lemma loop_body_nonblank (line : str) :
  strip line <> [] ->
  loop_body tokenizer model line =
    bind (truncate_text tokenizer (strip line)) (generate_and_print model).
Proof.
  intros Hne. unfold loop_body, generate_and_print.
  now rewrite (is_empty_false _ Hne).
Qed.

Lemma truncate_text_log (text : str) :
  log (truncate_text tokenizer text) =
    EvEncode text false ::
      match encode tokenizer text false with
      | Ok ids =>
          if len ids >? MAX_TOKENS tokenizer
          then [EvDecode (slice_to ids (MAX_TOKENS tokenizer)) true]
          else []
      | Raise _ => []
      end.
Proof.
  destruct (encode tokenizer text false) as [ids | e] eqn:He.
  - destruct (Z.gtb_spec (len ids) (MAX_TOKENS tokenizer)) as [H | H].
    + rewrite (truncate_text_cut tokenizer text ids He) by lia.
      reflexivity.
    + now rewrite (truncate_text_fits tokenizer text ids He H).
  - now rewrite (truncate_text_raise tokenizer text e He).
Qed.

(** Where each event of an iteration comes from. *)
Lemma loop_body_events (line : str) (e : event) :
  In e (log (loop_body tokenizer model line)) ->
  match e with
  | EvEncode text trunc =>
      text = strip line /\ text <> [] /\ trunc = false
  | EvDecode ids skip =>
      skip = true /\
      exists all,
        encode tokenizer (strip line) false = Ok all /\
        len all > MAX_TOKENS tokenizer /\
        ids = slice_to all (MAX_TOKENS tokenizer)
  | EvGenerate g =>
      exists t, yields_text tokenizer (strip line) t /\ g = request t
  | EvPrint None flush => flush = false /\ strip line = []
  | EvPrint (Some s) flush =>
      flush = true /\
      exists t,
        yields_text tokenizer (strip line) t /\
        first_text (model (request t)) = Ok s
  end.
Proof.
  destruct (strip line) as [| c text] eqn:Hs.
  - rewrite (loop_body_blank tokenizer model line Hs).
    intros [<- | []]. now split.
  - assert (Hne : strip line <> []) by now rewrite Hs.
    rewrite <- Hs. clear Hs c text.
    rewrite (loop_body_nonblank line Hne).
    rewrite (M_eta (truncate_text tokenizer (strip line))).
    assert (Hstep : forall e,
               In e (log (truncate_text tokenizer (strip line))) ->
               match e with
               | EvEncode text trunc =>
                   text = strip line /\ text <> [] /\ trunc = false
               | EvDecode ids skip =>
                   skip = true /\
                   exists all,
                     encode tokenizer (strip line) false = Ok all /\
                     len all > MAX_TOKENS tokenizer /\
                     ids = slice_to all (MAX_TOKENS tokenizer)
               | _ => False
               end).
    { intros e0. rewrite truncate_text_log.
      intros [<- | Hin]; [now repeat split |].
      destruct (encode tokenizer (strip line) false) as [ids | e1];
        [| contradiction].
      destruct (Z.gtb_spec (len ids) (MAX_TOKENS tokenizer)) as [H | H];
        [| contradiction].
      destruct Hin as [<- | []].
      split; [reflexivity |]. exists ids. repeat split. lia. }
    destruct (outcome (truncate_text tokenizer (strip line)))
      as [t | e1] eqn:Ht.
    + rewrite bind_ok. simpl. intros Hin.
      apply in_app_or in Hin as [Hin | Hin].
      * specialize (Hstep e Hin). now destruct e.
      * apply truncate_text_ok_iff in Ht.
        rewrite generate_and_print_eq in Hin.
        destruct (first_text (model (request t))) as [s | e2] eqn:Hf;
          simpl in Hin.
        -- destruct Hin as [<- | [<- | []]].
           ++ now exists t.
           ++ split; [reflexivity |]. now exists t.
        -- destruct Hin as [<- | []]. now exists t.
    + rewrite bind_raise. simpl. intros Hin.
      specialize (Hstep e Hin). now destruct e.
Qed.

End Provenance.

(** Every event of a run is an event of the iteration of one of its
    lines. *)
Lemma main_event_origin (tokenizer : Tokenizer) (model : Pipeline)
  (stdin : list str) (e : event) :
  In e (log (main tokenizer model stdin)) ->
  exists line,
    In line stdin /\ In e (log (loop_body tokenizer model line)).
Proof.
  induction stdin as [| line rest IH]; [contradiction |].
  destruct (outcome (loop_body tokenizer model line)) as [[] | e1] eqn:Hb.
  - rewrite (main_cons_ok tokenizer model line rest Hb). simpl.
    intros Hin. apply in_app_or in Hin as [Hin | Hin].
    + exists line. split; [now left | exact Hin].
    + destruct (IH Hin) as (l & Hl & He).
      exists l. split; [now right | exact He].
  - rewrite (main_cons_raise tokenizer model line rest e1 Hb). simpl.
    intros Hin. exists line. split; [now left | exact Hin].
Qed.

(** ** Blank lines and surrounding whitespace (lines 20-23) *)

(** X1.  The lines handled as blank are exactly the lines made of
    whitespace only (the empty line among them): for these, and for no
    other line, the iteration is the single [print()] of line 22. *)
Theorem blank_iff_whitespace (tokenizer : Tokenizer) (model : Pipeline)
  (line : str) :
  forallb isspace line = true <->
  loop_body tokenizer model line = ([EvPrint None false], Ok tt).
Proof.
  split.
  - intros H. apply loop_body_blank. now apply strip_nil_iff.
  - intros H. apply strip_nil_iff.
    destruct (strip line) as [| c text] eqn:Hs; [reflexivity |].
    assert (Hne : strip line <> []) by now rewrite Hs.
    destruct (loop_body_first_event tokenizer model line Hne) as [l Hl].
    rewrite H in Hl. discriminate.
Qed.

Lemma blank_iff_whitespace_witness :
  loop_body (char_tokenizer 512) echo_model line_blank =
    ([EvPrint None false], Ok tt) /\
  forallb isspace [newline] = true.
Proof.
  split.
  - apply (proj1 (blank_iff_whitespace (char_tokenizer 512) echo_model
                    line_blank)).
    reflexivity.
  - apply (proj2 (blank_iff_whitespace failing_tokenizer failing_model
                    [newline])).
    reflexivity.
Defined.

(** X2.  Whitespace around a line changes nothing: the line with any
    whitespace added in front and behind (indentation, a carriage
    return before the newline, no newline at all) gives the same calls,
    the same printed line and the same outcome; so does the stripped
    line itself. *)
Theorem surrounding_whitespace_ignored (tokenizer : Tokenizer)
  (model : Pipeline) (ws1 ws2 line : str) :
  forallb isspace ws1 = true ->
  forallb isspace ws2 = true ->
  loop_body tokenizer model (ws1 ++ line ++ ws2) =
    loop_body tokenizer model line /\
  loop_body tokenizer model (strip line) = loop_body tokenizer model line.
Proof.
  intros H1 H2. split.
  - unfold loop_body. now rewrite (strip_pad ws1 ws2 line H1 H2).
  - unfold loop_body. now rewrite strip_idempotent.
Qed.

Lemma surrounding_whitespace_ignored_witness :
  loop_body (char_tokenizer 512) echo_model
    (py "  " ++ py "hello" ++ [13%N; 10%N]) =
    loop_body (char_tokenizer 512) echo_model (py "hello").
Proof.
  exact (proj1 (surrounding_whitespace_ignored (char_tokenizer 512)
                  echo_model (py "  ") [13%N; 10%N] (py "hello")
                  eq_refl eq_refl)).
Defined.

(** ** What the tokenizer is asked (lines 26-30) *)

(** X3.  In a whole run, every text given to [encode] is the stripped
    text of an input line, is not empty, neither starts nor ends with
    whitespace, and is encoded with [truncation=False]. *)
Theorem encoded_texts_are_stripped (tokenizer : Tokenizer)
  (model : Pipeline) (stdin : list str) (text : str) (trunc : bool) :
  In (EvEncode text trunc) (log (main tokenizer model stdin)) ->
  trunc = false /\
  text <> [] /\
  isspace (hd 0%N text) = false /\
  isspace (last text 0%N) = false /\
  exists line, In line stdin /\ text = strip line.
Proof.
  intros Hin.
  destruct (main_event_origin tokenizer model stdin _ Hin)
    as (line & Hline & He).
  apply loop_body_events in He. destruct He as (-> & Hne & ->).
  destruct (strip_ends line Hne) as [Hh Hl].
  repeat split; try assumption. now exists line.
Qed.

Lemma encoded_texts_are_stripped_witness :
  isspace (hd 0%N (py "cd")) = false /\
  isspace (last (py "cd") 0%N) = false.
Proof.
  assert (Hin : In (EvEncode (py "cd") false)
                  (log (main (char_tokenizer 512) echo_model three_lines))).
  { vm_compute. do 4 right. left. reflexivity. }
  destruct (encoded_texts_are_stripped (char_tokenizer 512) echo_model
              three_lines (py "cd") false Hin) as (_ & _ & Hh & Hl & _).
  split; [exact Hh | exact Hl].
Defined.

Lemma nonblank_texts_cons (line : str) (rest : list str) :
  nonblank_texts (line :: rest) =
    if is_empty (strip line) then nonblank_texts rest
    else strip line :: nonblank_texts rest.
Proof.
  unfold nonblank_texts. simpl. now destruct (is_empty (strip line)).
Qed.

Lemma encode_calls_iteration (tokenizer : Tokenizer) (model : Pipeline)
  (line : str) :
  encode_calls (log (loop_body tokenizer model line)) =
    if is_empty (strip line) then [] else [strip line].
Proof.
  destruct (strip line) as [| c text] eqn:Hs.
  - now rewrite (loop_body_blank tokenizer model line Hs).
  - assert (Hne : strip line <> []) by now rewrite Hs.
    rewrite <- Hs.
    now rewrite (encode_calls_loop_body tokenizer model line Hne),
      (is_empty_false _ Hne).
Qed.

(** X4.  The texts given to [encode] during a run are the stripped
    texts of the lines that are not blank, in the order of the input:
    all of them when the run ends normally, and a first part of them
    when it is aborted. *)
Theorem encoded_texts_in_order (tokenizer : Tokenizer) (model : Pipeline)
  (stdin : list str) :
  exists unread,
    nonblank_texts stdin =
      encode_calls (log (main tokenizer model stdin)) ++ unread /\
    (outcome (main tokenizer model stdin) = Ok tt -> unread = []).
Proof.
  induction stdin as [| line rest (unread & IH & IHok)].
  - exists []. now split.
  - rewrite nonblank_texts_cons.
    destruct (outcome (loop_body tokenizer model line)) as [[] | e] eqn:Hb.
    + rewrite (main_cons_ok tokenizer model line rest Hb). simpl.
      exists unread. rewrite encode_calls_app, encode_calls_iteration.
      split; [| exact IHok].
      destruct (is_empty (strip line)); simpl; now rewrite IH.
    + rewrite (main_cons_raise tokenizer model line rest e Hb). simpl.
      rewrite encode_calls_iteration.
      destruct (is_empty (strip line)) eqn:Hemp.
      * exists (nonblank_texts rest). split; [reflexivity | discriminate].
      * exists (nonblank_texts rest). split; [reflexivity | discriminate].
Qed.

Lemma encoded_texts_in_order_witness :
  encode_calls (log (main (char_tokenizer 512) echo_model three_lines)) =
    [py "ab"; py "cd"].
Proof.
  destruct (encoded_texts_in_order (char_tokenizer 512) echo_model
              three_lines) as (unread & Heq & Hok).
  rewrite (Hok eq_refl), app_nil_r in Heq.
  symmetry. exact Heq.
Defined.

(** ** Words and the budget (lines 33-34) *)

(** A word and a separator take two characters: [n] words need at
    least [2n - 1] characters. *)
Lemma split_from_count (s cur : str) :
  2 * len (split_from cur s) <=
    len s + 1 + (if is_empty cur then 0 else 1).
Proof.
  unfold len. revert cur.
  induction s as [| c s IH]; intros cur.
  - destruct cur; cbn; lia.
  - cbn [split_from]. change (length (c :: s)) with (S (length s)).
    rewrite Nat2Z.inj_succ.
    destruct (isspace c).
    + pose proof (IH []) as H0. cbn [is_empty] in H0.
      destruct cur as [| x cur]; cbn [is_empty].
      * lia.
      * change (length (rev (x :: cur) :: split_from [] s))
          with (S (length (split_from [] s))).
        rewrite Nat2Z.inj_succ. lia.
    + pose proof (IH (c :: cur)) as H1. cbn [is_empty] in H1.
      destruct cur; cbn [is_empty]; lia.
Qed.

Lemma word_count_bound (text : str) : 2 * word_count text <= len text + 1.
Proof.
  unfold word_count, split.
  pose proof (split_from_count text []) as H. cbn [is_empty] in H. lia.
Qed.

Lemma split_from_space (ws cur : str) :
  forallb isspace ws = true ->
  split_from cur ws = match cur with [] => [] | _ => [rev cur] end.
Proof.
  revert cur. induction ws as [| c ws IH]; intros cur H; [reflexivity |].
  simpl in *. apply andb_true_iff in H as [Hc Hws]. rewrite Hc.
  rewrite (IH [] Hws). now destruct cur.
Qed.

Lemma split_from_app_space (s ws cur : str) :
  forallb isspace ws = true ->
  split_from cur (s ++ ws) = split_from cur s.
Proof.
  intros H. revert cur. induction s as [| c s IH]; intros cur.
  - simpl. now apply split_from_space.
  - simpl. destruct (isspace c); [| apply IH].
    rewrite (IH []). reflexivity.
Qed.

Lemma split_app_space_front (ws s : str) :
  forallb isspace ws = true -> split (ws ++ s) = split s.
Proof.
  unfold split. induction ws as [| c ws IH]; intros H; [reflexivity |].
  simpl in *. apply andb_true_iff in H as [Hc Hws].
  rewrite Hc. now apply IH.
Qed.

(** Stripping does not change the words. *)
Lemma split_strip (s : str) : split (strip s) = split s.
Proof.
  destruct (strip_split s) as (p & q & Hs & Hp & Hq).
  rewrite Hs at 2.
  rewrite (split_app_space_front p _ Hp). unfold split.
  now rewrite (split_from_app_space (strip s) q [] Hq).
Qed.

(** ** What the pipeline is asked (lines 35-41) *)

(** X5.  In a whole run, aborted or not, every call to the pipeline
    asks for deterministic decoding with the pipeline's truncation on
    and [min_length = 1], on a text that the tokenizer yields for one
    of the input lines, with the budget [max(2 * words, 5)] of that
    very text. *)
Theorem requests_of_a_run (tokenizer : Tokenizer) (model : Pipeline)
  (stdin : list str) (g : gen_call) :
  In (EvGenerate g) (log (main tokenizer model stdin)) ->
  do_sample g = false /\
  truncation g = true /\
  min_length g = 1 /\
  max_length g = Z.max (len (split (inputs g)) * 2) 5 /\
  exists line,
    In line stdin /\ strip line <> [] /\
    yields_text tokenizer (strip line) (inputs g).
Proof.
  intros Hin.
  destruct (main_event_origin tokenizer model stdin _ Hin)
    as (line & Hline & He).
  assert (Hne : strip line <> []).
  { intros Hnil.
    rewrite (loop_body_blank tokenizer model line Hnil) in He.
    destruct He as [He | []]. discriminate. }
  apply loop_body_events in He. destruct He as (t & Hy & ->).
  repeat split. now exists line.
Qed.

Lemma requests_of_a_run_witness :
  max_length (request (py "cd")) = 5 /\
  do_sample (request (py "cd")) = false.
Proof.
  assert (Hin : In (EvGenerate (request (py "cd")))
                  (log (main (char_tokenizer 512) echo_model three_lines))).
  { vm_compute. do 5 right. left. reflexivity. }
  destruct (requests_of_a_run (char_tokenizer 512) echo_model three_lines
              (request (py "cd")) Hin) as (Hs & _ & _ & Hmax & _).
  split; [exact Hmax | exact Hs].
Defined.

(** X6.  The budget never exceeds the length of the text by more than
    one, unless it is the floor of 5: every call to the pipeline in a
    run has [5 <= max_length <= max(len(text) + 1, 5)]. *)
Theorem budget_bounded_by_text_length (tokenizer : Tokenizer)
  (model : Pipeline) (stdin : list str) (g : gen_call) :
  In (EvGenerate g) (log (main tokenizer model stdin)) ->
  5 <= max_length g <= Z.max (len (inputs g) + 1) 5.
Proof.
  intros Hin.
  destruct (main_event_origin tokenizer model stdin _ Hin)
    as (line & _ & He).
  apply loop_body_events in He. destruct He as (t & _ & ->).
  simpl. unfold max_len.
  pose proof (word_count_bound t). lia.
Qed.

Lemma budget_bounded_by_text_length_witness :
  5 <= max_length (request (strip line_grammar)) <= 27.
Proof.
  assert (Hin : In (EvGenerate (request (strip line_grammar)))
                  (log (main (char_tokenizer 512) echo_model
                          [line_grammar]))).
  { vm_compute. right. left. reflexivity. }
  exact (budget_bounded_by_text_length (char_tokenizer 512) echo_model
           [line_grammar] (request (strip line_grammar)) Hin).
Defined.

(** X7.  For a line that is not blank and fits the capacity, the
    budget is that of the words of the raw line: stripping changes
    neither the words nor their number. *)
Theorem budget_of_raw_line (tokenizer : Tokenizer) (model : Pipeline)
  (line : str) (ids : list Z) :
  strip line <> [] ->
  encode tokenizer (strip line) false = Ok ids ->
  len ids <= MAX_TOKENS tokenizer ->
  split (strip line) = split line /\
  map max_length (generate_calls (log (loop_body tokenizer model line))) =
    [Z.max (len (split line) * 2) 5].
Proof.
  intros Hne Hids Hle.
  split; [apply split_strip |].
  rewrite (generate_calls_fits tokenizer model line ids Hne Hids Hle).
  simpl. unfold max_len, word_count. now rewrite split_strip.
Qed.

Lemma budget_of_raw_line_witness :
  map max_length
    (generate_calls (log (loop_body (char_tokenizer 512) echo_model
                            line_grammar))) =
    [Z.max (len (split line_grammar) * 2) 5].
Proof.
  assert (Hne : strip line_grammar <> []) by run.
  apply (budget_of_raw_line (char_tokenizer 512) echo_model line_grammar
           (map Z.of_N (strip line_grammar) ++ [eos]) Hne eq_refl).
  run.
Defined.

Lemma split_space (text : str) :
  forallb isspace text = true -> split text = [].
Proof. intros H. unfold split. now rewrite (split_from_space text [] H). Qed.

(** X8.  The text is not checked again after the cut: when the decoded
    prefix of a line that was too long is empty or all whitespace, the
    pipeline is still called, with that text and the floor budget 5. *)
Theorem blank_decoded_text_is_generated (tokenizer : Tokenizer)
  (model : Pipeline) (line : str) (ids : list Z) (t : str) :
  strip line <> [] ->
  encode tokenizer (strip line) false = Ok ids ->
  len ids > MAX_TOKENS tokenizer ->
  decode tokenizer (slice_to ids (MAX_TOKENS tokenizer)) true = Ok t ->
  forallb isspace t = true ->
  generate_calls (log (loop_body tokenizer model line)) =
    [{| inputs := t; max_length := 5; min_length := 1;
        do_sample := false; truncation := true |}].
Proof.
  intros Hne Hids Hgt Hd Hblank.
  rewrite (generate_calls_cut tokenizer model line ids Hne Hids t Hgt Hd).
  unfold request, max_len, word_count.
  now rewrite (split_space t Hblank).
Qed.

Lemma blank_decoded_text_is_generated_witness :
  generate_calls (log (loop_body (char_tokenizer 0) echo_model line_abc)) =
    [{| inputs := []; max_length := 5; min_length := 1;
        do_sample := false; truncation := true |}].
Proof.
  assert (Hne : strip line_abc <> []) by run.
  exact (blank_decoded_text_is_generated (char_tokenizer 0) echo_model
           line_abc [97; 98; 99; 1] [] Hne eq_refl eq_refl eq_refl
           eq_refl).
Defined.

(** ** The cut (lines 27-30) *)

Lemma slice_to_prefix {A : Type} (l : list A) (stop : Z) :
  exists dropped, l = slice_to l stop ++ dropped.
Proof.
  unfold slice_to. eexists. symmetry. apply firstn_skipn.
Qed.

Lemma slice_to_shorter {A : Type} (l : list A) (stop : Z) :
  len l > stop -> l <> [] -> len (slice_to l stop) < len l.
Proof.
  intros Hgt Hne. rewrite slice_to_len.
  assert (0 < len l) by (destruct l; [contradiction | unfold len; cbn; lia]).
  destruct (Z.ltb_spec stop 0); lia.
Qed.

(** X9.  Whatever the capacity, negative ones included, the sequence
    given to [decode] is a prefix of the encoded line, decoded with
    [skip_special_tokens=True]: the cut only drops tokens at the end,
    and it drops at least one unless the encoding is empty. *)
Theorem truncation_keeps_prefix (tokenizer : Tokenizer) (model : Pipeline)
  (stdin : list str) (ids : list Z) (skip : bool) :
  In (EvDecode ids skip) (log (main tokenizer model stdin)) ->
  skip = true /\
  exists line all dropped,
    In line stdin /\
    encode tokenizer (strip line) false = Ok all /\
    all = ids ++ dropped /\
    (all <> [] -> dropped <> []).
Proof.
  intros Hin.
  destruct (main_event_origin tokenizer model stdin _ Hin)
    as (line & Hline & He).
  apply loop_body_events in He.
  destruct He as (-> & all & Hall & Hgt & ->).
  split; [reflexivity |].
  destruct (slice_to_prefix all (MAX_TOKENS tokenizer)) as [dropped Hd].
  exists line, all, dropped. repeat split; try assumption.
  intros Hne ->. rewrite app_nil_r in Hd.
  pose proof (slice_to_shorter all (MAX_TOKENS tokenizer) Hgt Hne) as Hlt.
  rewrite <- Hd in Hlt. lia.
Qed.

Lemma truncation_keeps_prefix_witness :
  exists line all dropped,
    In line [line_four_words] /\
    encode (char_tokenizer (-6)) (strip line) false = Ok all /\
    all = [97; 32] ++ dropped /\
    (all <> [] -> dropped <> []).
Proof.
  assert (Hin : In (EvDecode [97; 32] true)
                  (log (main (char_tokenizer (-6)) echo_model
                          [line_four_words]))).
  { vm_compute. right. left. reflexivity. }
  exact (proj2 (truncation_keeps_prefix (char_tokenizer (-6)) echo_model
                  [line_four_words] [97; 32] true Hin)).
Defined.

(** X10.  What lies beyond the cut has no influence.  Two lines that
    are both too long and whose encodings share the kept prefix are
    decoded alike, make the same call to the pipeline, print the same
    line and end alike. *)
Theorem text_beyond_cut_ignored (tokenizer : Tokenizer) (model : Pipeline)
  (line1 line2 : str) (ids1 ids2 : list Z) :
  strip line1 <> [] ->
  strip line2 <> [] ->
  encode tokenizer (strip line1) false = Ok ids1 ->
  encode tokenizer (strip line2) false = Ok ids2 ->
  len ids1 > MAX_TOKENS tokenizer ->
  len ids2 > MAX_TOKENS tokenizer ->
  slice_to ids1 (MAX_TOKENS tokenizer) =
    slice_to ids2 (MAX_TOKENS tokenizer) ->
  let run1 := loop_body tokenizer model line1 in
  let run2 := loop_body tokenizer model line2 in
  decode_calls (log run1) = decode_calls (log run2) /\
  generate_calls (log run1) = generate_calls (log run2) /\
  printed (log run1) = printed (log run2) /\
  outcome run1 = outcome run2.
Proof.
  intros Hne1 Hne2 He1 He2 Hgt1 Hgt2 Hcut run1 run2. subst run1 run2.
  rewrite (loop_body_nonblank tokenizer model line1 Hne1).
  rewrite (loop_body_nonblank tokenizer model line2 Hne2).
  rewrite (truncate_text_cut tokenizer _ ids1 He1 Hgt1).
  rewrite (truncate_text_cut tokenizer _ ids2 He2 Hgt2).
  rewrite Hcut.
  destruct (decode tokenizer (slice_to ids2 (MAX_TOKENS tokenizer)) true)
    as [t | e].
  - rewrite !bind_ok. simpl. repeat split.
  - rewrite !bind_raise. simpl. repeat split.
Qed.

Lemma text_beyond_cut_ignored_witness :
  printed (log (loop_body (char_tokenizer 3) echo_model line_four_words)) =
    printed (log (loop_body (char_tokenizer 3) echo_model (py "a bXYZ"))).
Proof.
  assert (Hne1 : strip line_four_words <> []) by run.
  assert (Hne2 : strip (py "a bXYZ") <> []) by run.
  destruct (text_beyond_cut_ignored (char_tokenizer 3) echo_model
              line_four_words (py "a bXYZ")
              [97; 32; 98; 32; 99; 32; 100; 1]
              [97; 32; 98; 88; 89; 90; 1]
              Hne1 Hne2 eq_refl eq_refl eq_refl eq_refl eq_refl)
    as (_ & _ & Hp & _).
  exact Hp.
Defined.

(** ** The answer of the pipeline (line 43) *)

Lemma dict_get_missing (d : dict) (k : string) :
  ~ In k (map fst d) -> dict_get d k = Raise (KeyError k).
Proof.
  induction d as [| [k' v] d IH]; intros H; [reflexivity |].
  simpl in *. destruct (String.eqb_spec k' k) as [-> | Hk].
  - exfalso. apply H. now left.
  - apply IH. intros Hin. apply H. now right.
Qed.

(** X11.  When the first candidate returned by the pipeline has no
    ["generated_text"], the iteration raises [KeyError] for that key
    after its one call to the pipeline and prints nothing; no other
    key is tried. *)
Theorem missing_key_raises (tokenizer : Tokenizer) (model : Pipeline)
  (line t : str) (d : dict) (rest : list dict) :
  strip line <> [] ->
  yields_text tokenizer (strip line) t ->
  model (request t) = Ok (d :: rest) ->
  ~ In "generated_text"%string (map fst d) ->
  let run := loop_body tokenizer model line in
  outcome run = Raise (KeyError "generated_text") /\
  printed (log run) = [] /\
  generate_calls (log run) = [request t].
Proof.
  intros Hne Hy Hm Hkey run. subst run.
  apply truncate_text_ok_iff in Hy.
  assert (Hl : truncate_text tokenizer (strip line) =
               (log (truncate_text tokenizer (strip line)), Ok t))
    by (rewrite <- Hy; apply M_eta).
  rewrite (loop_body_no_key tokenizer model line _ t Hne Hl d rest _ Hm
             (dict_get_missing d _ Hkey)).
  destruct (truncate_text_calls tokenizer (strip line))
    as (_ & _ & Hg & Hp).
  simpl. rewrite printed_app, generate_calls_app, Hg, Hp.
  repeat split.
Qed.

Lemma missing_key_raises_witness :
  outcome (loop_body (char_tokenizer 512) summary_model line_hello) =
    Raise (KeyError "generated_text") /\
  printed (log (loop_body (char_tokenizer 512) summary_model line_hello))
    = [].
Proof.
  assert (Hne : strip line_hello <> []) by run.
  assert (Hy : yields_text (char_tokenizer 512) (strip line_hello)
                 (py "hello")).
  { exists (map Z.of_N (py "hello") ++ [eos]).
    split; [reflexivity | left]. split; [run | reflexivity]. }
  assert (Hkey : ~ In "generated_text"%string
                   (map fst [("summary_text"%string, py "hello")])).
  { simpl. intros [H | []]. discriminate. }
  destruct (missing_key_raises (char_tokenizer 512) summary_model
              line_hello (py "hello")
              [("summary_text"%string, py "hello")] []
              Hne Hy eq_refl Hkey) as (Ho & Hp & _).
  split; [exact Ho | exact Hp].
Defined.

Lemma bind_ext {A B : Type} (m : M A) (k1 k2 : A -> M B) :
  (forall a, k1 a = k2 a) -> bind m k1 = bind m k2.
Proof.
  intros H. destruct m as [l [a | e]]; [| reflexivity].
  unfold bind. now rewrite H.
Qed.

(** X12.  Of the answer of the pipeline only the ["generated_text"]
    of the first candidate is read.  Two pipelines whose answers agree
    on it (or fail alike) give the same run on every input: further
    candidates and further keys change nothing. *)
Theorem only_first_candidate_read (tokenizer : Tokenizer)
  (model1 model2 : Pipeline) (stdin : list str) :
  (forall g, first_text (model1 g) = first_text (model2 g)) ->
  main tokenizer model1 stdin = main tokenizer model2 stdin.
Proof.
  intros Hagree.
  assert (Hbody : forall line,
             loop_body tokenizer model1 line =
             loop_body tokenizer model2 line).
  { intros line. destruct (strip line) as [| c text] eqn:Hs.
    - now rewrite !loop_body_blank.
    - assert (Hne : strip line <> []) by now rewrite Hs.
      rewrite !loop_body_nonblank by exact Hne.
      apply bind_ext. intros t.
      now rewrite !generate_and_print_eq, Hagree. }
  induction stdin as [| line rest IH]; [reflexivity |].
  simpl. rewrite Hbody. apply bind_ext. intros _. exact IH.
Qed.

Lemma only_first_candidate_read_witness :
  printed (log (main (char_tokenizer 512) two_candidates_model
                  three_lines)) = [py "ab"; []; py "cd"].
Proof.
  assert (Hagree : forall g,
             first_text (two_candidates_model g) = first_text (echo_model g))
    by (intros g; reflexivity).
  rewrite (only_first_candidate_read (char_tokenizer 512)
             two_candidates_model echo_model three_lines Hagree).
  reflexivity.
Defined.

(** ** Standard output over a run (lines 22 and 43) *)

(** X13.  A line that is not blank and is processable hands to the
    consumer, at once and in order, all that was waiting in the buffer
    (the newlines of the blank lines before it) followed by its own
    output line; nothing is left in the buffer. *)
Theorem nonblank_line_delivers (tokenizer : Tokenizer) (model : Pipeline)
  (line : str) (lb : bool) (o : stdout) :
  strip line <> [] ->
  processable tokenizer model line ->
  exists s,
    printed (log (loop_body tokenizer model line)) = [s] /\
    stdout_after lb o (log (loop_body tokenizer model line)) =
      {| delivered := delivered o ++ pending o ++ s ++ [newline];
         pending := [] |}.
Proof.
  intros Hne Hproc.
  apply loop_body_ok_iff in Hproc.
  destruct (truncate_text_calls tokenizer (strip line))
    as (_ & _ & _ & Hp).
  destruct (truncate_text tokenizer (strip line)) as [l [t | e]] eqn:Ht;
    simpl in Hp.
  - destruct (loop_body_with_text tokenizer model line l t Hne Ht)
      as [[s Hs] | [e He]].
    + exists s. rewrite Hs. simpl. split.
      * now rewrite printed_app, Hp.
      * rewrite stdout_after_app, (stdout_after_silent lb l o Hp).
        reflexivity.
    + rewrite He in Hproc. discriminate.
  - rewrite (loop_body_no_text tokenizer model line l e Hne Ht) in Hproc.
    discriminate.
Qed.

Lemma nonblank_line_delivers_witness :
  exists s,
    printed (log (loop_body (char_tokenizer 512) echo_model line_hello))
      = [s] /\
    stdout_after false {| delivered := py "x"; pending := [newline] |}
      (log (loop_body (char_tokenizer 512) echo_model line_hello)) =
      {| delivered := py "x" ++ [newline] ++ s ++ [newline];
         pending := [] |}.
Proof.
  assert (Hne : strip line_hello <> []) by run.
  exact (nonblank_line_delivers (char_tokenizer 512) echo_model line_hello
           false {| delivered := py "x"; pending := [newline] |} Hne
           (reliable_processable _ _ _ (sample_reliable 512))).
Defined.

Lemma in_firstn {A : Type} (n : nat) (l : list A) (x : A) :
  In x (firstn n l) -> In x l.
Proof.
  revert l. induction n as [| n IH]; intros [| y l]; simpl; try tauto.
  intros [-> | H]; [now left | right; now apply IH].
Qed.

(** A log in which only empty lines are printed without a flush keeps
    the buffer made of newlines. *)
Lemma pending_newlines (lb : bool) (l : list event) (o : stdout) :
  (forall obj flush,
      In (EvPrint obj flush) l -> obj = None \/ flush = true) ->
  all_newlines (pending o) ->
  all_newlines (pending (stdout_after lb o l)).
Proof.
  unfold stdout_after. revert o.
  induction l as [| e l IH]; intros o Hl Ho; [exact Ho |].
  simpl. apply IH.
  - intros obj flush Hin. apply (Hl obj flush). now right.
  - destruct e as [| | | obj flush]; try exact Ho.
    simpl. destruct (Hl obj flush (or_introl eq_refl)) as [-> | ->].
    + destruct (flush || lb); simpl; [constructor |].
      apply Forall_app. split; [exact Ho | now repeat constructor].
    + simpl. constructor.
Qed.

(** X14.  At every moment of a run, whatever the input and whatever the
    buffering of standard output, the buffer holds nothing but the
    newlines of blank lines: a generated text never waits in it. *)
Theorem pending_only_newlines (tokenizer : Tokenizer) (model : Pipeline)
  (stdin : list str) (lb : bool) (n : nat) :
  all_newlines
    (pending (stdout_after lb empty_stdout
                (firstn n (log (main tokenizer model stdin))))).
Proof.
  apply pending_newlines; [| constructor].
  intros obj flush Hin. apply in_firstn in Hin.
  destruct (main_event_origin tokenizer model stdin _ Hin)
    as (line & _ & He).
  apply loop_body_events in He.
  destruct obj as [s |]; [right | now left].
  now destruct He.
Qed.

(** ** The course of a run (line 19) *)

(** X15.  A run either processes every line and ends normally, or
    stops at the first line that is not processable, with the
    exception of that line as its outcome, having printed one line for
    each line before it and nothing since. *)
Theorem run_outcome (tokenizer : Tokenizer) (model : Pipeline)
  (stdin : list str) :
  (Forall (processable tokenizer model) stdin /\
   outcome (main tokenizer model stdin) = Ok tt) \/
  (exists before line after e,
      stdin = before ++ line :: after /\
      Forall (processable tokenizer model) before /\
      ~ processable tokenizer model line /\
      outcome (loop_body tokenizer model line) = Raise e /\
      main tokenizer model stdin =
        (log (main tokenizer model before) ++
           log (loop_body tokenizer model line), Raise e) /\
      printed (log (main tokenizer model stdin)) =
        printed (log (main tokenizer model before)) /\
      length (printed (log (main tokenizer model stdin))) = length before).
Proof.
  induction stdin as [| line rest IH].
  - left. now split.
  - destruct (outcome (loop_body tokenizer model line)) as [[] | e] eqn:Hb.
    + assert (Hproc : processable tokenizer model line)
        by now apply loop_body_ok_iff.
      pose proof (loop_body_one_line tokenizer model line) as H1.
      rewrite Hb in H1. destruct H1 as [o Ho].
      destruct IH as [[Hall Hok] | (before & l & after & e & Heq & Hall &
                                     Hnot & Hraise & Hmain & Hp & Hlen)].
      * left. split; [now constructor |].
        now rewrite (main_cons_ok tokenizer model line rest Hb).
      * right. exists (line :: before), l, after, e.
        rewrite (main_cons_ok tokenizer model line rest Hb).
        rewrite (main_cons_ok tokenizer model line before Hb).
        cbn [log outcome fst snd].
        split; [now rewrite Heq |].
        split; [now constructor |].
        split; [exact Hnot |].
        split; [exact Hraise |].
        split; [| split].
        -- rewrite Hmain. cbn [log outcome fst snd].
           now rewrite <- app_assoc.
        -- now rewrite !printed_app, Hp.
        -- rewrite printed_app, length_app, Hlen, Ho. reflexivity.
    + right. exists [], line, rest, e.
      rewrite (main_cons_raise tokenizer model line rest e Hb).
      pose proof (loop_body_one_line tokenizer model line) as H1.
      rewrite Hb in H1. simpl. rewrite H1.
      repeat split; try reflexivity; try constructor; try assumption.
      intros Hproc. apply loop_body_ok_iff in Hproc. congruence.
Qed.

Lemma run_outcome_witness :
  outcome (main (char_tokenizer 512) silent_model three_lines) =
    Raise IndexError /\
  printed (log (main (char_tokenizer 512) silent_model three_lines)) = [].
Proof.
  destruct (run_outcome (char_tokenizer 512) silent_model three_lines)
    as [[_ Hok] | (before & line & after & e & _ & _ & _ & _ & Hmain & _)].
  - discriminate Hok.
  - split; reflexivity.
Defined.

(** ** How many calls a run makes *)

Lemma calls_of_iteration (tokenizer : Tokenizer) (model : Pipeline)
  (line : str) :
  let l := log (loop_body tokenizer model line) in
  length (encode_calls l) = (if is_empty (strip line) then 0 else 1)%nat /\
  (length (decode_calls l) <= length (encode_calls l))%nat /\
  (length (generate_calls l) <= length (encode_calls l))%nat /\
  (outcome (loop_body tokenizer model line) = Ok tt ->
   length (generate_calls l) = length (encode_calls l)).
Proof.
  intros l. subst l.
  destruct (strip line) as [| c text] eqn:Hs.
  - rewrite (loop_body_blank tokenizer model line Hs). simpl.
    repeat split; lia.
  - assert (Hne : strip line <> []) by now rewrite Hs.
    rewrite (encode_calls_loop_body tokenizer model line Hne).
    rewrite (decode_calls_loop_body tokenizer model line Hne).
    rewrite (generate_calls_loop_body tokenizer model line Hne).
    destruct (truncate_text_calls tokenizer (strip line))
      as (_ & Hd & _ & _).
    simpl. split; [reflexivity |]. split; [exact Hd |].
    destruct (outcome (truncate_text tokenizer (strip line)))
      as [t | e] eqn:Ht; simpl.
    + split; [lia | reflexivity].
    + split; [lia |]. intros Hok.
      apply (loop_body_ok_nonblank tokenizer model line Hne) in Hok.
      destruct Hok as (t & _ & _ & _ & Hy & _).
      apply truncate_text_ok_iff in Hy. rewrite Hy in Ht. discriminate.
Qed.

(** X16.  A run asks for at most one encoding per line that is not
    blank, and never calls [decode] or the pipeline more often than
    [encode]; a run that ends normally has called the pipeline exactly
    once for each line that is not blank. *)
Theorem calls_of_a_run (tokenizer : Tokenizer) (model : Pipeline)
  (stdin : list str) :
  let l := log (main tokenizer model stdin) in
  (length (generate_calls l) <= length (encode_calls l))%nat /\
  (length (decode_calls l) <= length (encode_calls l))%nat /\
  (length (encode_calls l) <= length (nonblank_texts stdin))%nat /\
  (length (nonblank_texts stdin) <= length stdin)%nat /\
  (outcome (main tokenizer model stdin) = Ok tt ->
   length (generate_calls l) = length (nonblank_texts stdin)).
Proof.
  intros l. subst l.
  induction stdin as [| line rest (IHg & IHd & IHe & IHn & IHok)].
  - simpl. repeat split; lia.
  - destruct (calls_of_iteration tokenizer model line)
      as (He & Hd & Hg & Hok).
    rewrite nonblank_texts_cons.
    destruct (outcome (loop_body tokenizer model line)) as [[] | e] eqn:Hb.
    + rewrite (main_cons_ok tokenizer model line rest Hb).
      cbn [log outcome fst snd].
      rewrite generate_calls_app, decode_calls_app, encode_calls_app.
      rewrite !length_app. specialize (Hok eq_refl).
      destruct (is_empty (strip line)); cbn [length] in *;
        repeat split; try lia; intros H; specialize (IHok H); lia.
    + rewrite (main_cons_raise tokenizer model line rest e Hb).
      cbn [log outcome fst snd].
      destruct (is_empty (strip line)); cbn [length] in *;
        repeat split; try lia; discriminate.
Qed.

Lemma calls_of_a_run_witness :
  length (generate_calls
            (log (main (char_tokenizer 512) echo_model three_lines))) =
    2%nat.
Proof.
  destruct (calls_of_a_run (char_tokenizer 512) echo_model three_lines)
    as (_ & _ & _ & _ & Hok).
  exact (Hok eq_refl).
Defined.

(** ** The words that are counted (line 33) *)

Lemma split_from_words (s cur : str) :
  forallb (fun c => negb (isspace c)) cur = true ->
  Forall single_word (split_from cur s) /\
  concat (split_from cur s) =
    rev cur ++ filter (fun c => negb (isspace c)) s.
Proof.
  revert cur. induction s as [| c s IH]; intros cur Hcur.
  - destruct cur as [| x cur]; [now split |].
    cbn [split_from filter concat]. rewrite !app_nil_r.
    split; [| reflexivity].
    constructor; [| constructor]. split.
    + simpl. now destruct (rev cur).
    + now rewrite forallb_rev.
  - cbn [split_from filter]. destruct (isspace c) eqn:Hc; cbn [negb].
    + destruct (IH [] eq_refl) as [Hw Hcat]. simpl in Hcat.
      destruct cur as [| x cur]; [now split |].
      cbn [concat]. rewrite Hcat. split; [| reflexivity].
      constructor; [| exact Hw]. split.
      * simpl. now destruct (rev cur).
      * now rewrite forallb_rev.
    + assert (Hcur' : forallb (fun c => negb (isspace c)) (c :: cur) = true)
        by (simpl; now rewrite Hc, Hcur).
      destruct (IH (c :: cur) Hcur') as [Hw Hcat].
      split; [exact Hw |].
      rewrite Hcat. simpl. now rewrite <- app_assoc.
Qed.

(** X17.  The words counted for the budget are what [split()] gives:
    each is non-empty and free of whitespace, and together, in order,
    they are the text with its whitespace removed. *)
Theorem split_words (text : str) :
  Forall single_word (split text) /\
  concat (split text) = filter (fun c => negb (isspace c)) text.
Proof.
  unfold split.
  destruct (split_from_words text [] eq_refl) as [Hwords Hconcat].
  split; [exact Hwords | exact Hconcat].
Qed.
